(** * go-utils: the shared request pipeline of the API client

    A shallow embedding of
    - [pkg/api/utils/apiServiceUtils.go] (single-shot operations, the error
      mapper, [addAuthHeader]) and the project handler that follows it,
    - the v2 project and event handlers (pagination and retry drivers),
    - the legacy [utils] package ([post], [delete], [get]),
    - [pkg/api/utils/sequenceUtils.go] ([SequenceControlParams.Validate]).

    Go values are modelled as follows: [int] as [Z]; [string] as [string];
    [[]byte] as [list byte]; a nil-able [*string] as [option string]; a
    returned [*models.Error] or [error] as [option _] ([None] is [nil]);
    [http.Header] and [url.Values] as [gmap string (list string)].  A run
    time panic and [log.Fatal] are explicit outcomes.  Network and clock
    effects thread a [World] that also records a ghost trace of the
    requests issued and the sleeps taken. *)

From Stdlib Require Import ZArith List String Ascii Bool Lia.
From Stdlib.Strings Require Import Byte.
From Stdlib Require Import DecimalString.
From stdpp Require Import base option gmap strings list fin_maps.

Open Scope string_scope.
Open Scope list_scope.
Open Scope Z_scope.

(** ** Go basics *)

Module Go.

Abbreviation bytes := (list byte).

(** [string(b)] for [b []byte]. *)
Definition string_of_bytes (b : bytes) : string := string_of_list_byte b.

(** Outcome of a Go call that may panic or exit the process. *)
Inductive Outcome (A : Type) : Type :=
| Ret (a : A)
| Panic (reason : string)
| Fatal (reason : string).
Arguments Ret {A} a.
Arguments Panic {A} reason.
Arguments Fatal {A} reason.

Definition bind {A B} (o : Outcome A) (k : A -> Outcome B) : Outcome B :=
  match o with
  | Ret a => k a
  | Panic r => Panic r
  | Fatal r => Fatal r
  end.

Definition nilDeref : string := "invalid memory address or nil pointer dereference".

(** The verb [%d]. *)
Definition itoa (n : Z) : string := NilZero.string_of_int (Z.to_int n).

(** [fmt.Sprintf(format, n)] for a format whose only verb is one [%d]:
    the first [%d] is replaced by the decimal form of [n]. *)
Fixpoint Sprintf_d (format : string) (n : Z) : string :=
  match format with
  | EmptyString => EmptyString
  | String c rest =>
      match rest with
      | String d rest' =>
          if (Ascii.eqb c "%" && Ascii.eqb d "d")%bool
          then itoa n +:+ rest'
          else String c (Sprintf_d rest n)
      | EmptyString => String c EmptyString
      end
  end.

(** [strings.Join(elems, sep)]. *)
Fixpoint Join (elems : list string) (sep : string) : string :=
  match elems with
  | [] => ""
  | [x] => x
  | x :: rest => x +:+ sep +:+ Join rest sep
  end.

Definition nonEmpty (s : string) : bool := negb (String.eqb s "").

(** [len(x)] for a slice. *)
Definition len {A} (x : list A) : Z := Z.of_nat (length x).

Definition newline : string := String (ascii_of_nat 10) EmptyString.

End Go.
Import Go.

(** [p] occurs in [s] as a contiguous substring. *)
Definition Contains (p s : string) : Prop :=
  exists pre post, s = pre +:+ p +:+ post.

(** ** sequenceUtils.go *)

Module SequenceUtils.

Record SequenceControlParams := {
  Project : string;
  KeptnContext : string;
  Stage : string;
  State : string
}.

(** The slice [errMsg] that [Validate] builds, in source order. *)
Definition missingFragments (s : SequenceControlParams) : list string :=
  let errMsg : list string := [] in
  let errMsg := if String.eqb (Project s) ""
                then errMsg ++ ["project parameter not set"] else errMsg in
  let errMsg := if String.eqb (KeptnContext s) ""
                then errMsg ++ ["keptn context parameter not set"] else errMsg in
  let errMsg := if String.eqb (State s) ""
                then errMsg ++ ["sequence state parameter not set"] else errMsg in
  errMsg.

(** [func (s *SequenceControlParams) Validate() error]; [None] is [nil],
    [Some m] an error whose [Error()] is [m]. *)
Definition Validate (s : SequenceControlParams) : option string :=
  let errMsg := missingFragments s in
  let errStr := Join errMsg "," in
  if 0 <? len errMsg
  then Some ("failed to validate sequence control parameters: " +:+ errStr)
  else None.

End SequenceUtils.

(** ** models, net/http *)

Module models.

(** [models.Error]; [Message] is a [*string]. *)
Record Error := { Message : option string }.

(** [models.EventContext]; [KeptnContext] is a [*string]. *)
Record EventContext := { KeptnContext : option string }.

(** [models.Projects] over the project payload type. *)
Record Projects (P : Type) := {
  Projects_Projects : list P;
  Projects_NextPageKey : string
}.
Arguments Projects_Projects {P} _.
Arguments Projects_NextPageKey {P} _.

(** [models.Events] over the event payload type. *)
Record Events (E : Type) := {
  Events_Events : list E;
  Events_NextPageKey : string
}.
Arguments Events_Events {E} _.
Arguments Events_NextPageKey {E} _.

End models.
Import models.

Module http.

Abbreviation Header := (gmap string (list string)).

Record Request := {
  Method : string;
  RequestURI : string;
  ReqHeader : gmap string (list string);
  ReqBody : option bytes
}.

(** [http.Response]; [Body] is what [ioutil.ReadAll(resp.Body)] gives:
    the error text or the bytes read. *)
Record Response := {
  StatusCode : Z;
  Status : string;
  Body : string + bytes
}.

End http.
Import http.

(** ** External collaborators

    Everything the repository takes from outside its own source: the JSON
    codecs of the model types, the constant [ErrWithStatusCode], [net/url],
    [net/http], [strconv], [time] and [context]. *)

Class Externals := {
  (* models: payload types and their [FromJSON]; [inl] is [err.Error()] *)
  Project : Type;
  KeptnContextExtendedCE : Type;
  Error_FromJSON : bytes -> string + Error;
  EventContext_FromJSON : bytes -> string + EventContext;
  Project_FromJSON : bytes -> string + Project;
  Projects_FromJSON : bytes -> string + Projects Project;
  Events_FromJSON : bytes -> string + Events KeptnContextExtendedCE;
  (* the format constant used by [handleErrStatusCode] *)
  ErrWithStatusCode : string;
  (* net/url *)
  URL : Type;
  url_Parse : string -> string + URL;
  url_Query : URL -> gmap string (list string);
  url_withRawQuery : URL -> string -> URL;
  url_String : URL -> string;
  Values_Encode : gmap string (list string) -> string;
  (* net/http: key canonicalisation of [Header.Set]/[Header.Get] and the
     error, if any, of [http.NewRequest method url] *)
  CanonicalHeaderKey : string -> string;
  NewRequest_error : string -> string -> option string;
  (* the state of the network and of the backend behind it *)
  Net : Type;
  (* strconv.Atoi: value and error *)
  Atoi : string -> Z * option string;
  (* time.Duration and its [String()] *)
  Duration : Type;
  Duration_String : Duration -> string;
  (* the backend as it is after a pause of the given length *)
  elapse : Duration -> Net -> Net;
  (* context.Context *)
  Context : Type
}.

Section Pipeline.

Context {X : Externals}.

(** [http.Client.Do]: the answer to a request and the new network state;
    [inl] is the text of a transport error. *)
Definition Client : Type := Request -> Net -> (string + Response) * Net.

(** Ghost trace of effects. *)
Inductive Effect : Type :=
| EvRequest (method url : string)
| EvFetch
| EvSleep (d : Duration).

Record World := { net : Net; trace : list Effect }.

Definition emit (e : Effect) (w : World) : World :=
  {| net := net w; trace := trace w ++ [e] |}.

(** [<-time.After(d)]. *)
Definition sleep (d : Duration) (w : World) : World :=
  {| net := elapse d (net w); trace := trace w ++ [EvSleep d] |}.

(** [client.Do(req)] on a world. *)
Definition Do (c : Client) (req : Request) (w : World) : (string + Response) * World :=
  let '(r, n) := c req (net w) in
  (r, {| net := n; trace := trace w ++ [EvRequest (Method req) (RequestURI req)] |}).

(** The interface [APIService] ([ConfigService] in the legacy package),
    as the record of its methods' results. *)
Record APIService := {
  getBaseURL : string;
  getAuthToken : string;
  getAuthHeader : string;
  getHTTPClient : Client
}.

(** [req.Header.Set(key, value)] and [req.Header.Get(key)]. *)
Definition Header_Set (h : gmap string (list string)) (key value : string)
  : gmap string (list string) :=
  <[CanonicalHeaderKey key := [value]]> h.

Definition Header_Get (h : gmap string (list string)) (key : string) : string :=
  match h !! CanonicalHeaderKey key with
  | Some (v :: _) => v
  | _ => ""
  end.

Definition setHeader (req : Request) (key value : string) : Request :=
  {| Method := Method req; RequestURI := RequestURI req;
     ReqHeader := Header_Set (ReqHeader req) key value; ReqBody := ReqBody req |}.

(** [http.NewRequest(method, url, body)]: a request without headers. *)
Definition NewRequest (method url : string) (body : option bytes) : string + Request :=
  match NewRequest_error method url with
  | Some err => inl err
  | None => inr {| Method := method; RequestURI := url; ReqHeader := ∅; ReqBody := body |}
  end.

(** [url.Values.Set]. *)
Definition Values_Set (q : gmap string (list string)) (key value : string)
  : gmap string (list string) :=
  <[key := [value]]> q.

End Pipeline.

(** ** pkg/api/utils: apiServiceUtils.go and the project handler *)

Module Api.
Section Api.

Context {X : Externals}.

(** What an operation holds once its body has been read. *)
Record Reply := { code : Z; status : string; body : bytes }.

Definition buildErrorResponse (errorStr : string) : Error :=
  {| Message := Some errorStr |}.

Definition addAuthHeader (req : Request) (api : APIService) : Request :=
  if nonEmpty (getAuthHeader api) && nonEmpty (getAuthToken api)
  then setHeader req (getAuthHeader api) (getAuthToken api)
  else req.

(** The request every operation builds: [http.NewRequest], then
    [Content-Type], then [addAuthHeader]. *)
Definition buildRequest (method uri : string) (data : option bytes) (api : APIService)
  : string + Request :=
  match NewRequest method uri data with
  | inl err => inl err
  | inr req =>
      let req := setHeader req "Content-Type" "application/json" in
      inr (addAuthHeader req api)
  end.

(** The prologue shared, line for line, by every single-shot operation:
    build the request, [Do] it, [ioutil.ReadAll] the body.  [inl] is
    [err.Error()] of the step that failed. *)
Definition roundTrip (method uri : string) (data : option bytes) (api : APIService)
           (w : World) : (string + Reply) * World :=
  match buildRequest method uri data api with
  | inl err => (inl err, w)
  | inr req =>
      match Do (getHTTPClient api) req w with
      | (inl err, w') => (inl err, w')
      | (inr resp, w') =>
          match Body resp with
          | inl err => (inl err, w')
          | inr b => (inr {| code := StatusCode resp; status := Status resp; body := b |}, w')
          end
      end
  end.

(** [handleErrStatusCode]; the result is the [Error()] text of the
    returned error.  [respErr] is the address of a fresh struct, so the
    test [respErr != nil] always holds; [*respErr.Message] dereferences the
    [Message] pointer. *)
Definition handleErrStatusCode (statusCode : Z) (body : bytes) : Outcome string :=
  match Error_FromJSON body with
  | inr respErr =>
      match Message respErr with
      | Some m => Ret m
      | None => Panic nilDeref
      end
  | inl _ => Ret (Sprintf_d ErrWithStatusCode statusCode)
  end.

(** [fmt.Sprintf("Received unexpected response: %d %s", code, status)]. *)
Definition unexpectedResponse (r : Reply) : string :=
  "Received unexpected response: " +:+ itoa (code r) +:+ " " +:+ status r.

(** The tail shared by [put], [post] and their event-context variants
    when the status is outside the band. *)
Definition writeFailure {A} (zero : A) (r : Reply) : Outcome (A * option Error) :=
  if 0 <? len (body r)
  then bind (handleErrStatusCode (code r) (body r))
         (fun e => Ret (zero, Some (buildErrorResponse e)))
  else Ret (zero, Some (buildErrorResponse (unexpectedResponse r))).

(** Decoding of an event context in the success branch.  The line the
    source prints to standard output when the context has an identifier is
    not part of the result and is left out. *)
Definition decodeEventContext (b : bytes) : option EventContext * option Error :=
  match EventContext_FromJSON b with
  | inl err =>
      (None, Some (buildErrorResponse
                     (err +:+ newline +:+ "-----DETAILS-----" +:+ string_of_bytes b)))
  | inr eventContext => (Some eventContext, None)
  end.

Definition putWithEventContext (uri : string) (data : bytes) (api : APIService) (w : World)
  : Outcome (option EventContext * option Error) * World :=
  match roundTrip "PUT" uri (Some data) api w with
  | (inl err, w') => (Ret (None, Some (buildErrorResponse err)), w')
  | (inr r, w') =>
      if (200 <=? code r) && (code r <=? 204) then
        if 0 <? len (body r) then (Ret (decodeEventContext (body r)), w')
        else (Ret (None, None), w')
      else (writeFailure None r, w')
  end.

Definition put (uri : string) (data : bytes) (api : APIService) (w : World)
  : Outcome (string * option Error) * World :=
  match roundTrip "PUT" uri (Some data) api w with
  | (inl err, w') => (Ret ("", Some (buildErrorResponse err)), w')
  | (inr r, w') =>
      if (200 <=? code r) && (code r <=? 204) then
        if 0 <? len (body r) then (Ret (string_of_bytes (body r), None), w')
        else (Ret ("", None), w')
      else (writeFailure "" r, w')
  end.

Definition postWithEventContext (uri : string) (data : bytes) (api : APIService) (w : World)
  : Outcome (option EventContext * option Error) * World :=
  match roundTrip "POST" uri (Some data) api w with
  | (inl err, w') => (Ret (None, Some (buildErrorResponse err)), w')
  | (inr r, w') =>
      if (200 <=? code r) && (code r <=? 204) then
        if 0 <? len (body r) then (Ret (decodeEventContext (body r)), w')
        else (Ret (None, None), w')
      else (writeFailure None r, w')
  end.

Definition post (uri : string) (data : bytes) (api : APIService) (w : World)
  : Outcome (string * option Error) * World :=
  match roundTrip "POST" uri (Some data) api w with
  | (inl err, w') => (Ret ("", Some (buildErrorResponse err)), w')
  | (inr r, w') =>
      if (200 <=? code r) && (code r <=? 204) then
        if 0 <? len (body r) then (Ret (string_of_bytes (body r), None), w')
        else (Ret ("", None), w')
      else (writeFailure "" r, w')
  end.

Definition deleteWithEventContext (uri : string) (api : APIService) (w : World)
  : Outcome (option EventContext * option Error) * World :=
  match roundTrip "DELETE" uri None api w with
  | (inl err, w') => (Ret (None, Some (buildErrorResponse err)), w')
  | (inr r, w') =>
      if (200 <=? code r) && (code r <? 300) then
        if 0 <? len (body r) then (Ret (decodeEventContext (body r)), w')
        else (Ret (None, None), w')
      else (bind (handleErrStatusCode (code r) (body r))
              (fun e => Ret (None, Some (buildErrorResponse e))), w')
  end.

Definition delete (uri : string) (api : APIService) (w : World)
  : Outcome (string * option Error) * World :=
  match roundTrip "DELETE" uri None api w with
  | (inl err, w') => (Ret ("", Some (buildErrorResponse err)), w')
  | (inr r, w') =>
      if (200 <=? code r) && (code r <? 300) then
        if 0 <? len (body r) then (Ret (string_of_bytes (body r), None), w')
        else (Ret ("", None), w')
      else (bind (handleErrStatusCode (code r) (body r))
              (fun e => Ret ("", Some (buildErrorResponse e))), w')
  end.

(** [getProject]; the error of [handleErrStatusCode] is returned as the
    operation's [*models.Error] with the same text. *)
Definition getProject (uri : string) (api : APIService) (w : World)
  : Outcome (option Project * option Error) * World :=
  match roundTrip "GET" uri None api w with
  | (inl err, w') => (Ret (None, Some (buildErrorResponse err)), w')
  | (inr r, w') =>
      if (200 <=? code r) && (code r <? 300) then
        if 0 <? len (body r) then
          match Project_FromJSON (body r) with
          | inl err => (Ret (None, Some (buildErrorResponse err)), w')
          | inr respProject => (Ret (Some respProject, None), w')
          end
        else (Ret (None, None), w')
      else (bind (handleErrStatusCode (code r) (body r))
              (fun e => Ret (None, Some (buildErrorResponse e))), w')
  end.

(** *** The project handler *)

Record ProjectHandler := {
  BaseURL : string;
  AuthToken : string;
  AuthHeader : string;
  HTTPClient : Client;
  Scheme : string
}.

(** [ProjectHandler] implements [APIService]. *)
Definition ProjectHandler_api (p : ProjectHandler) : APIService :=
  {| getBaseURL := BaseURL p; getAuthToken := AuthToken p;
     getAuthHeader := AuthHeader p; getHTTPClient := HTTPClient p |}.

Definition v1ProjectPath : string := "/v1/project".

(** The URL of one page: [q.Set] and [url.RawQuery = q.Encode()] only when
    [nextPageKey] is not empty, then [url.String()]. *)
Definition pageURL (url : URL) (nextPageKey : string) : string :=
  let q := url_Query url in
  let url := if nonEmpty nextPageKey
             then url_withRawQuery url (Values_Encode (Values_Set q "nextPageKey" nextPageKey))
             else url in
  url_String url.

(** The body of the [for] loop of [GetAllProjects]; every turn of the loop
    spends one unit of [fuel], and [None] means the fuel ran out.  The
    result is [(projects, err)] with [err] the text of the error.  The
    assignment to the TLS configuration of [http.DefaultTransport] that
    opens the function does not bear on the result and is left out. *)
Fixpoint GetAllProjects_loop (fuel : nat) (p : ProjectHandler) (projects : list Project)
         (nextPageKey : string) (w : World)
  : option (Outcome (list Project * option string) * World) :=
  match fuel with
  | O => None
  | S fuel =>
      match url_Parse (Scheme p +:+ "://" +:+ BaseURL p +:+ v1ProjectPath) with
      | inl err => Some (Ret ([], Some err), w)
      | inr url =>
          match NewRequest "GET" (pageURL url nextPageKey) None with
          | inl err => Some (Ret ([], Some err), w)
          | inr req =>
              let req := setHeader req "Content-Type" "application/json" in
              let req := addAuthHeader req (ProjectHandler_api p) in
              match Do (HTTPClient p) req w with
              | (inl err, w') => Some (Ret ([], Some err), w')
              | (inr resp, w') =>
                  match Body resp with
                  | inl err => Some (Ret ([], Some err), w')
                  | inr body =>
                      if StatusCode resp =? 200 then
                        match Projects_FromJSON body with
                        | inl err => Some (Ret ([], Some err), w')
                        | inr received =>
                            let projects := projects ++ Projects_Projects received in
                            if String.eqb (Projects_NextPageKey received) ""
                               || String.eqb (Projects_NextPageKey received) "0"
                            then Some (Ret (projects, None), w')
                            else GetAllProjects_loop fuel p projects
                                   (Projects_NextPageKey received) w'
                        end
                      else
                        Some (bind (handleErrStatusCode (StatusCode resp) body)
                                (fun e => Ret ([], Some e)), w')
                  end
              end
          end
      end
  end.

Definition GetAllProjects (fuel : nat) (p : ProjectHandler) (w : World)
  : option (Outcome (list Project * option string) * World) :=
  GetAllProjects_loop fuel p [] "" w.

End Api.
End Api.

(** ** pkg/api/utils/v2: the event handler *)

(** The executor of the v2 package, whose source is not part of this
    development: [getAndExpectOK(ctx, uri, api)] performs one GET and
    returns [(body, mErr)]. *)
Class ExecutorV2 {X : Externals} := {
  getAndExpectOK : Context -> string -> APIService -> Net -> (bytes * option Error) * Net
}.

Module V2.
Section V2.

Context {X : Externals} {E2 : ExecutorV2}.

Record EventHandler := {
  BaseURL : string;
  AuthToken : string;
  AuthHeader : string;
  HTTPClient : Client;
  Scheme : string
}.

Record EventFilter := {
  Project : string;
  Stage : string;
  Service : string;
  EventType : string;
  KeptnContext : string;
  EventID : string;
  PageSize : string;
  NumberOfPages : Z;
  FromTime : string
}.

(** [EventHandler] implements [APIService]. *)
Definition EventHandler_api (e : EventHandler) : APIService :=
  {| getBaseURL := BaseURL e; getAuthToken := AuthToken e;
     getAuthHeader := AuthHeader e; getHTTPClient := HTTPClient e |}.

(** One call of the executor on a world. *)
Definition callGetAndExpectOK (ctx : Context) (uri : string) (e : EventHandler) (w : World)
  : (bytes * option Error) * World :=
  let '(r, n) := getAndExpectOK ctx uri (EventHandler_api e) (net w) in
  (r, {| net := n; trace := trace w ++ [EvRequest "GET" uri] |}).

(** The two [break] tests after a page has been appended. *)
Definition lastPage (numberOfPages : Z) (received : Events KeptnContextExtendedCE) : bool :=
  if String.eqb (Events_NextPageKey received) "" || String.eqb (Events_NextPageKey received) "0"
  then true
  else
    let nextPageKeyInt := fst (Atoi (Events_NextPageKey received)) in
    (0 <? numberOfPages) && (numberOfPages <=? nextPageKeyInt).

(** The [for] loop of [getEventsWithContext]; one unit of [fuel] per turn,
    [None] when the fuel runs out. *)
Fixpoint getEventsWithContext_loop (fuel : nat) (ctx : Context) (e : EventHandler)
         (uri : string) (numberOfPages : Z) (events : list KeptnContextExtendedCE)
         (nextPageKey : string) (w : World)
  : option ((list KeptnContextExtendedCE * option Error) * World) :=
  match fuel with
  | O => None
  | S fuel =>
      match url_Parse uri with
      | inl err => Some (([], Some (Api.buildErrorResponse err)), w)
      | inr url =>
          match callGetAndExpectOK ctx (Api.pageURL url nextPageKey) e w with
          | ((_, Some mErr), w') => Some (([], Some mErr), w')
          | ((body, None), w') =>
              match Events_FromJSON body with
              | inl err => Some (([], Some (Api.buildErrorResponse err)), w')
              | inr received =>
                  let events := events ++ Events_Events received in
                  if lastPage numberOfPages received
                  then Some ((events, None), w')
                  else getEventsWithContext_loop fuel ctx e uri numberOfPages events
                         (Events_NextPageKey received) w'
              end
          end
      end
  end.

Definition getEventsWithContext (fuel : nat) (ctx : Context) (e : EventHandler)
           (uri : string) (numberOfPages : Z) (w : World)
  : option ((list KeptnContextExtendedCE * option Error) * World) :=
  getEventsWithContext_loop fuel ctx e uri numberOfPages [] "" w.

(** [query.Set(key, value)] when [value] is not empty. *)
Definition setIfNonEmpty (key value : string) (query : gmap string (list string))
  : gmap string (list string) :=
  if nonEmpty value then Values_Set query key value else query.

Definition filterQuery (filter : EventFilter) (query : gmap string (list string))
  : gmap string (list string) :=
  let query := setIfNonEmpty "project" (Project filter) query in
  let query := setIfNonEmpty "stage" (Stage filter) query in
  let query := setIfNonEmpty "service" (Service filter) query in
  let query := setIfNonEmpty "keptnContext" (KeptnContext filter) query in
  let query := setIfNonEmpty "eventID" (EventID filter) query in
  let query := setIfNonEmpty "type" (EventType filter) query in
  let query := setIfNonEmpty "pageSize" (PageSize filter) query in
  let query := setIfNonEmpty "fromTime" (FromTime filter) query in
  query.

(** [GetEventsWithContext]; the entry of the call is recorded in the
    trace.  A URL that does not parse ends the process ([log.Fatal]). *)
Definition GetEventsWithContext (fuel : nat) (ctx : Context) (e : EventHandler)
           (filter : EventFilter) (w : World)
  : option (Outcome (list KeptnContextExtendedCE * option Error) * World) :=
  let w := emit EvFetch w in
  match url_Parse (Scheme e +:+ "://" +:+ BaseURL e +:+ "/event?") with
  | inl _ => Some (Fatal "error parsing url", w)
  | inr u =>
      let query := filterQuery filter (url_Query u) in
      let u := url_withRawQuery u (Values_Encode query) in
      match getEventsWithContext fuel ctx e (url_String u) (NumberOfPages filter) w with
      | None => None
      | Some (r, w') => Some (Ret r, w')
      end
  end.

(** The error returned once the attempts are used up. *)
Definition notFound (maxRetries : Z) (retrySleepTime : Duration) : string :=
  "could not find matching event after " +:+ itoa maxRetries +:+ " x "
    +:+ Duration_String retrySleepTime.

(** The test [errObj == nil && len(events) > 0]. *)
Definition satisfactory (r : list KeptnContextExtendedCE * option Error) : bool :=
  match snd r with
  | None => 0 <? len (fst r)
  | Some _ => false
  end.

(** The loop [for i := 0; i < maxRetries; i = i + 1] with [turns] turns
    left; [fuel] is handed to every fetch. *)
Fixpoint retryLoop (turns : nat) (fuel : nat) (ctx : Context) (e : EventHandler)
         (filter : EventFilter) (maxRetries : Z) (retrySleepTime : Duration) (w : World)
  : option (Outcome (list KeptnContextExtendedCE * option string) * World) :=
  match turns with
  | O => Some (Ret ([], Some (notFound maxRetries retrySleepTime)), w)
  | S turns =>
      match GetEventsWithContext fuel ctx e filter w with
      | None => None
      | Some (Ret r, w') =>
          if satisfactory r then Some (Ret (fst r, None), w')
          else retryLoop turns fuel ctx e filter maxRetries retrySleepTime
                 (sleep retrySleepTime w')
      | Some (Panic reason, w') => Some (Panic reason, w')
      | Some (Fatal reason, w') => Some (Fatal reason, w')
      end
  end.

(** [GetEventsWithRetryWithContext]: the loop runs [max 0 maxRetries]
    turns. *)
Definition GetEventsWithRetryWithContext (fuel : nat) (ctx : Context) (e : EventHandler)
           (filter : EventFilter) (maxRetries : Z) (retrySleepTime : Duration) (w : World)
  : option (Outcome (list KeptnContextExtendedCE * option string) * World) :=
  retryLoop (Z.to_nat maxRetries) fuel ctx e filter maxRetries retrySleepTime w.

End V2.
End V2.

(** ** The legacy utils package *)

(** [json.Unmarshal] into the legacy package's [models.Error] and
    [models.Project]. *)
Class LegacyCodec := {
  LegacyProject : Type;
  Unmarshal_Error : bytes -> string + Error;
  Unmarshal_Project : bytes -> string + LegacyProject
}.

Module Legacy.
Section Legacy.

Context {X : Externals} {LC : LegacyCodec}.

Definition addAuthHeader (req : Request) (c : APIService) : Request :=
  if nonEmpty (getAuthHeader c) && nonEmpty (getAuthToken c)
  then setHeader req (getAuthHeader c) (getAuthToken c)
  else req.

(** The prologue of [post], [delete] and [get].  The error of
    [http.NewRequest] is overwritten unread; with a nil request the next
    line, [req.Header.Set], panics. *)
Definition send (method uri : string) (data : option bytes) (c : APIService) (w : World)
  : Outcome (string + Response) * World :=
  match NewRequest method uri data with
  | inl _ => (Panic nilDeref, w)
  | inr req =>
      let req := setHeader req "Content-Type" "application/json" in
      let req := addAuthHeader req c in
      let '(r, w') := Do (getHTTPClient c) req w in
      (Ret r, w')
  end.

(** [post]: a [models.Error] pointer and an [error]. *)
Definition post (uri : string) (data : bytes) (c : APIService) (w : World)
  : Outcome (option Error * option string) * World :=
  match send "POST" uri (Some data) c w with
  | (Ret (inl err), w') => (Ret (None, Some err), w')
  | (Ret (inr resp), w') =>
      if (200 <=? StatusCode resp) && (StatusCode resp <? 300) then (Ret (None, None), w')
      else
        match Body resp with
        | inl err => (Ret (None, Some err), w')
        | inr body =>
            match Unmarshal_Error body with
            | inl err => (Ret (None, Some err), w')
            | inr respErr => (Ret (Some respErr, None), w')
            end
        end
  | (Panic r, w') => (Panic r, w')
  | (Fatal r, w') => (Fatal r, w')
  end.

Definition delete (uri : string) (c : APIService) (w : World)
  : Outcome (option Error * option string) * World :=
  match send "DELETE" uri None c w with
  | (Ret (inl err), w') => (Ret (None, Some err), w')
  | (Ret (inr resp), w') =>
      if (200 <=? StatusCode resp) && (StatusCode resp <? 300) then (Ret (None, None), w')
      else
        match Body resp with
        | inl err => (Ret (None, Some err), w')
        | inr body =>
            match Unmarshal_Error body with
            | inl err => (Ret (None, Some err), w')
            | inr respErr => (Ret (Some respErr, None), w')
            end
        end
  | (Panic r, w') => (Panic r, w')
  | (Fatal r, w') => (Fatal r, w')
  end.

(** [get]: a [models.Project] pointer and an [error]. *)
Definition get (uri : string) (c : APIService) (w : World)
  : Outcome (option LegacyProject * option string) * World :=
  match send "GET" uri None c w with
  | (Ret (inl err), w') => (Ret (None, Some err), w')
  | (Ret (inr resp), w') =>
      if (200 <=? StatusCode resp) && (StatusCode resp <? 300) then (Ret (None, None), w')
      else
        match Body resp with
        | inl err => (Ret (None, Some err), w')
        | inr body =>
            match Unmarshal_Project body with
            | inl err => (Ret (None, Some err), w')
            | inr respProject => (Ret (Some respProject, None), w')
            end
        end
  | (Panic r, w') => (Panic r, w')
  | (Fatal r, w') => (Fatal r, w')
  end.

End Legacy.
End Legacy.

(** ** Go's [strings] package, as far as the handlers use it *)

Module GoStrings.

(** [s] without the leading [prefix], if it starts with it. *)
Fixpoint stripPrefix (prefix s : string) : option string :=
  match prefix, s with
  | EmptyString, _ => Some s
  | String a prefix', String c s' =>
      if Ascii.eqb a c then stripPrefix prefix' s' else None
  | String _ _, EmptyString => None
  end.

Definition HasPrefix (s prefix : string) : bool :=
  match stripPrefix prefix s with Some _ => true | None => false end.

Definition TrimPrefix (s prefix : string) : string :=
  match stripPrefix prefix s with Some rest => rest | None => s end.

(** Some tail of [s] is [suffix]. *)
Fixpoint HasSuffix (s suffix : string) : bool :=
  String.eqb s suffix
  || match s with
     | EmptyString => false
     | String _ t => HasSuffix t suffix
     end.

Fixpoint inCutset (c : ascii) (cutset : string) : bool :=
  match cutset with
  | EmptyString => false
  | String x rest => Ascii.eqb c x || inCutset c rest
  end.

(** [s] without its trailing characters that are in [cutset]. *)
Fixpoint TrimRight (s cutset : string) : string :=
  match s with
  | EmptyString => EmptyString
  | String c t =>
      let t' := TrimRight t cutset in
      if String.eqb t' "" && inCutset c cutset then EmptyString else String c t'
  end.

(** Some tail of [s] starts with [substr]. *)
Fixpoint Contains (s substr : string) : bool :=
  HasPrefix s substr
  || match s with
     | EmptyString => false
     | String _ t => Contains t substr
     end.

End GoStrings.

(** ** The transport builder of apiServiceUtils.go *)

(** The parts of [net/http] and [crypto/tls] the builder touches: the
    fields of [http.Transport], [tls.Config] and [http.Client] it leaves
    alone, with their zero values, the proxy functions, and the round
    trippers of other types. *)
Class NetHTTP := {
  TransportFields : Type;
  zeroTransportFields : TransportFields;
  TLSFields : Type;
  zeroTLSFields : TLSFields;
  ClientFields : Type;
  zeroClientFields : ClientFields;
  ProxyFunc : Type;
  ProxyFromEnvironment : ProxyFunc;
  CustomRoundTripper : Type
}.

Module Transport.
Section Transport.

Context {N : NetHTTP}.

Record TLSConfig := {
  InsecureSkipVerify : bool;
  tlsFields : TLSFields
}.

(** [http.Transport]; a nil pointer or function is [None]. *)
Record HTTPTransport := {
  TLSClientConfig : option TLSConfig;
  Proxy : option ProxyFunc;
  transportFields : TransportFields
}.

(** [http.RoundTripper]: nil, a [*http.Transport], the wrapper
    [*otelhttp.Transport] around a base, or a value of another type. *)
Inductive RoundTripper : Type :=
| NilRoundTripper
| Standard (tr : HTTPTransport)
| Otel (base : RoundTripper)
| Custom (rt : CustomRoundTripper).

(** [http.Client]. *)
Record HTTPClient := {
  ClientTransport : RoundTripper;
  clientFields : ClientFields
}.

Definition insecure : TLSConfig :=
  {| InsecureSkipVerify := true; tlsFields := zeroTLSFields |}.

Definition wrapOtelTransport (base : RoundTripper) : RoundTripper := Otel base.

(** [getClientTransport]; for a [*http.Transport] the result is the
    transport it was given, with the two fields assigned. *)
Definition getClientTransport (rt : RoundTripper) : RoundTripper :=
  match rt with
  | NilRoundTripper =>
      Standard {| TLSClientConfig := Some insecure;
                  Proxy := Some ProxyFromEnvironment;
                  transportFields := zeroTransportFields |}
  | Standard tr =>
      Standard {| TLSClientConfig := Some insecure;
                  Proxy := Some ProxyFromEnvironment;
                  transportFields := transportFields tr |}
  | _ => rt
  end.

(** [createInstrumentedClientTransport]; the result for a client that is
    not nil is that client, with its transport assigned. *)
Definition createInstrumentedClientTransport (httpClient : option HTTPClient) : HTTPClient :=
  match httpClient with
  | None =>
      {| ClientTransport := wrapOtelTransport (getClientTransport NilRoundTripper);
         clientFields := zeroClientFields |}
  | Some c =>
      {| ClientTransport := wrapOtelTransport (getClientTransport (ClientTransport c));
         clientFields := clientFields c |}
  end.

(** The number of instrumentation layers around a round tripper. *)
Fixpoint otelDepth (rt : RoundTripper) : nat :=
  match rt with
  | Otel base => S (otelDepth base)
  | _ => O
  end.

End Transport.
End Transport.

(** ** The handlers' constructors and the methods around the drivers *)

(** What these take from outside the source at hand: the constant
    [shipyardControllerBaseURL], the codec and the name of a project,
    [context.TODO()], [httputils.TrimHTTPScheme], the executor
    [getAndExpectSuccess] of the v2 package, and the behaviour of an
    [http.Client] as a [Client]. *)
Class Collaborators {X : Externals} {N : NetHTTP} := {
  shipyardControllerBaseURL : string;
  Project_ToJSON : Project -> string + bytes;
  Project_ProjectName : Project -> string;
  context_TODO : Context;
  TrimHTTPScheme : string -> string;
  getAndExpectSuccess : Context -> string -> APIService -> Net -> (bytes * option Error) * Net;
  clientOver : Transport.HTTPClient -> Client
}.

Module EventUtils.
Section EventUtils.

Context {X : Externals} {E2 : ExecutorV2} {N : NetHTTP} {Co : Collaborators}.

Definition mongodbDatastoreServiceBaseUrl : string := "mongodb-datastore".

(** The client [&http.Client{Transport: wrapOtelTransport(getClientTransport(nil))}]. *)
Definition freshClient : Transport.HTTPClient :=
  {| Transport.ClientTransport :=
       Transport.wrapOtelTransport (Transport.getClientTransport Transport.NilRoundTripper);
     Transport.clientFields := zeroClientFields |}.

Definition NewEventHandler (baseURL : string) : V2.EventHandler :=
  let baseURL :=
    if GoStrings.Contains baseURL "https://" then GoStrings.TrimPrefix baseURL "https://"
    else if GoStrings.Contains baseURL "http://" then GoStrings.TrimPrefix baseURL "http://"
    else baseURL in
  {| V2.BaseURL := baseURL; V2.AuthToken := ""; V2.AuthHeader := "";
     V2.HTTPClient := clientOver freshClient; V2.Scheme := "http" |}.

Definition createAuthenticatedEventHandler (baseURL authToken authHeader : string)
           (httpClient : Client) (scheme : string) : V2.EventHandler :=
  let baseURL := GoStrings.TrimPrefix baseURL "http://" in
  let baseURL := GoStrings.TrimPrefix baseURL "https://" in
  let baseURL := GoStrings.TrimRight baseURL "/" in
  let baseURL :=
    if negb (GoStrings.HasSuffix baseURL mongodbDatastoreServiceBaseUrl)
    then baseURL +:+ "/" +:+ mongodbDatastoreServiceBaseUrl
    else baseURL in
  {| V2.BaseURL := baseURL; V2.AuthToken := authToken; V2.AuthHeader := authHeader;
     V2.HTTPClient := httpClient; V2.Scheme := scheme |}.

(** [NewAuthenticatedEventHandler]; the transport of the client it is given
    is replaced by the instrumented one before the handler is made. *)
Definition NewAuthenticatedEventHandler (baseURL authToken authHeader : string)
           (httpClient : option Transport.HTTPClient) (scheme : string) : V2.EventHandler :=
  let httpClient :=
    match httpClient with
    | None => {| Transport.ClientTransport := Transport.NilRoundTripper;
                 Transport.clientFields := zeroClientFields |}
    | Some c => c
    end in
  let httpClient :=
    {| Transport.ClientTransport :=
         Transport.wrapOtelTransport
           (Transport.getClientTransport (Transport.ClientTransport httpClient));
       Transport.clientFields := Transport.clientFields httpClient |} in
  createAuthenticatedEventHandler baseURL authToken authHeader (clientOver httpClient) scheme.

Definition GetEvents (fuel : nat) (e : V2.EventHandler) (filter : V2.EventFilter) (w : World)
  : option (Outcome (list KeptnContextExtendedCE * option Error) * World) :=
  V2.GetEventsWithContext fuel context_TODO e filter w.

Definition GetEventsWithRetry (fuel : nat) (e : V2.EventHandler) (filter : V2.EventFilter)
           (maxRetries : Z) (retrySleepTime : Duration) (w : World)
  : option (Outcome (list KeptnContextExtendedCE * option string) * World) :=
  V2.GetEventsWithRetryWithContext fuel context_TODO e filter maxRetries retrySleepTime w.

End EventUtils.
End EventUtils.

Module ProjectUtils.
Section ProjectUtils.

Context {X : Externals} {N : NetHTTP} {Co : Collaborators}.

Definition createAuthProjectHandler (baseURL authToken authHeader : string)
           (httpClient : Client) (scheme : string) : Api.ProjectHandler :=
  let baseURL := GoStrings.TrimPrefix baseURL "http://" in
  let baseURL := GoStrings.TrimPrefix baseURL "https://" in
  let baseURL := GoStrings.TrimRight baseURL "/" in
  let baseURL :=
    if negb (GoStrings.HasSuffix baseURL shipyardControllerBaseURL)
    then baseURL +:+ "/" +:+ shipyardControllerBaseURL
    else baseURL in
  {| Api.BaseURL := baseURL; Api.AuthToken := authToken; Api.AuthHeader := authHeader;
     Api.HTTPClient := httpClient; Api.Scheme := scheme |}.

Definition NewProjectHandler (baseURL : string) : Api.ProjectHandler :=
  let baseURL := TrimHTTPScheme baseURL in
  {| Api.BaseURL := baseURL; Api.AuthToken := ""; Api.AuthHeader := "";
     Api.HTTPClient :=
       clientOver
         {| Transport.ClientTransport :=
              Transport.wrapOtelTransport
                (Transport.getClientTransport Transport.NilRoundTripper);
            Transport.clientFields := zeroClientFields |};
     Api.Scheme := "http" |}.

Definition projectURL (p : Api.ProjectHandler) : string :=
  Api.Scheme p +:+ "://" +:+ Api.BaseURL p +:+ Api.v1ProjectPath.

(** [CreateProject]: a project that does not marshal ends the call.  The
    context that the call sites of this file pass first is not among the
    parameters of the operations of apiServiceUtils.go and plays no part. *)
Definition CreateProject (p : Api.ProjectHandler) (project : Project) (w : World)
  : Outcome (option EventContext * option Error) * World :=
  match Project_ToJSON project with
  | inl err => (Ret (None, Some (Api.buildErrorResponse err)), w)
  | inr bodyStr =>
      Api.postWithEventContext (projectURL p) bodyStr (Api.ProjectHandler_api p) w
  end.

Definition DeleteProject (p : Api.ProjectHandler) (project : Project) (w : World)
  : Outcome (option EventContext * option Error) * World :=
  Api.deleteWithEventContext (projectURL p +:+ "/" +:+ Project_ProjectName project)
    (Api.ProjectHandler_api p) w.

Definition GetProject (p : Api.ProjectHandler) (project : Project) (w : World)
  : Outcome (option Project * option Error) * World :=
  Api.getProject (projectURL p +:+ "/" +:+ Project_ProjectName project)
    (Api.ProjectHandler_api p) w.

Definition UpdateConfigurationServiceProject (p : Api.ProjectHandler) (project : Project)
           (w : World) : Outcome (option EventContext * option Error) * World :=
  match Project_ToJSON project with
  | inl err => (Ret (None, Some (Api.buildErrorResponse err)), w)
  | inr bodyStr =>
      Api.putWithEventContext (projectURL p +:+ "/" +:+ Project_ProjectName project)
        bodyStr (Api.ProjectHandler_api p) w
  end.

End ProjectUtils.
End ProjectUtils.

(** ** pkg/api/utils/v2: the project handler *)

Module ProjectUtilsV2.
Section ProjectUtilsV2.

Context {X : Externals} {E2 : ExecutorV2} {N : NetHTTP} {Co : Collaborators}.

Record ProjectHandler := {
  BaseURL : string;
  AuthToken : string;
  AuthHeader : string;
  HTTPClient : Client;
  Scheme : string
}.

Definition ProjectHandler_api (p : ProjectHandler) : APIService :=
  {| getBaseURL := BaseURL p; getAuthToken := AuthToken p;
     getAuthHeader := AuthHeader p; getHTTPClient := HTTPClient p |}.

Definition createAuthProjectHandler (baseURL authToken authHeader : string)
           (httpClient : Client) (scheme : string) : ProjectHandler :=
  let baseURL := GoStrings.TrimPrefix baseURL "http://" in
  let baseURL := GoStrings.TrimPrefix baseURL "https://" in
  let baseURL := GoStrings.TrimRight baseURL "/" in
  let baseURL :=
    if negb (GoStrings.HasSuffix baseURL shipyardControllerBaseURL)
    then baseURL +:+ "/" +:+ shipyardControllerBaseURL
    else baseURL in
  {| BaseURL := baseURL; AuthToken := authToken; AuthHeader := authHeader;
     HTTPClient := httpClient; Scheme := scheme |}.

(** One call of an executor of the v2 package on a world. *)
Definition callExecutor
           (exec : Context -> string -> APIService -> Net -> (bytes * option Error) * Net)
           (ctx : Context) (uri : string) (p : ProjectHandler) (w : World)
  : (bytes * option Error) * World :=
  let '(r, n) := exec ctx uri (ProjectHandler_api p) (net w) in
  (r, {| net := n; trace := trace w ++ [EvRequest "GET" uri] |}).

Definition GetProjectWithContext (ctx : Context) (p : ProjectHandler) (project : Project)
           (w : World) : (option Project * option Error) * World :=
  match callExecutor getAndExpectSuccess ctx
          (Scheme p +:+ "://" +:+ BaseURL p +:+ Api.v1ProjectPath +:+ "/"
             +:+ Project_ProjectName project) p w with
  | ((_, Some mErr), w') => ((None, Some mErr), w')
  | ((body, None), w') =>
      match Project_FromJSON body with
      | inl err => ((None, Some (Api.buildErrorResponse err)), w')
      | inr respProject => ((Some respProject, None), w')
      end
  end.

Definition GetProject (p : ProjectHandler) (project : Project) (w : World)
  : (option Project * option Error) * World :=
  GetProjectWithContext context_TODO p project w.

(** The [for] loop of [GetAllProjectsWithContext]; one unit of [fuel] per
    turn, [None] when the fuel runs out.  The returned [error] is either
    [mErr.ToError()] for the error [mErr] of the executor, kept as [inl mErr],
    or an error of [url.Parse] or of the decoder, kept as [inr] of its
    text. *)
Fixpoint GetAllProjectsWithContext_loop (fuel : nat) (ctx : Context) (p : ProjectHandler)
         (projects : list Project) (nextPageKey : string) (w : World)
  : option ((list Project * option (Error + string)) * World) :=
  match fuel with
  | O => None
  | S fuel =>
      match url_Parse (Scheme p +:+ "://" +:+ BaseURL p +:+ Api.v1ProjectPath) with
      | inl err => Some (([], Some (inr err)), w)
      | inr url =>
          match callExecutor getAndExpectOK ctx (Api.pageURL url nextPageKey) p w with
          | ((_, Some mErr), w') => Some (([], Some (inl mErr)), w')
          | ((body, None), w') =>
              match Projects_FromJSON body with
              | inl err => Some (([], Some (inr err)), w')
              | inr received =>
                  let projects := projects ++ Projects_Projects received in
                  if String.eqb (Projects_NextPageKey received) ""
                     || String.eqb (Projects_NextPageKey received) "0"
                  then Some ((projects, None), w')
                  else GetAllProjectsWithContext_loop fuel ctx p projects
                         (Projects_NextPageKey received) w'
              end
          end
      end
  end.

Definition GetAllProjectsWithContext (fuel : nat) (ctx : Context) (p : ProjectHandler)
           (w : World) : option ((list Project * option (Error + string)) * World) :=
  GetAllProjectsWithContext_loop fuel ctx p [] "" w.

Definition GetAllProjects (fuel : nat) (p : ProjectHandler) (w : World)
  : option ((list Project * option (Error + string)) * World) :=
  GetAllProjectsWithContext fuel context_TODO p w.

End ProjectUtilsV2.
End ProjectUtilsV2.

(** ** Test doubles

    A small concrete instance of the external collaborators, on which the
    model runs: table-driven decoders, a client and an executor that answer
    from a script indexed by the number of requests already served. *)

Module Sample.

Definition b (s : string) : bytes := list_byte_of_string s.

Definition quote : string := String (ascii_of_nat 34) EmptyString.

(** The body [{"message":"m"}]. *)
Definition messageBody (m : string) : string :=
  "{" +:+ quote +:+ "message" +:+ quote +:+ ":" +:+ quote +:+ m +:+ quote +:+ "}".

Definition decodeWith {A} (table : list (string * A)) (body : bytes) : string + A :=
  match find (fun kv => String.eqb (fst kv) (string_of_bytes body)) table with
  | Some kv => inr (snd kv)
  | None => inl "invalid character"
  end.

Definition digit (c : ascii) : option Z :=
  let n := Z.of_nat (nat_of_ascii c) in
  if (48 <=? n) && (n <=? 57) then Some (n - 48) else None.

Fixpoint digits (acc : Z) (s : string) : option Z :=
  match s with
  | EmptyString => Some acc
  | String c rest =>
      match digit c with
      | Some d => digits (10 * acc + d) rest
      | None => None
      end
  end.

(** Decimal text with an optional sign; anything else is a syntax error
    with value 0. *)
Definition atoi (s : string) : Z * option string :=
  let parse (neg : bool) (t : string) :=
    match t with
    | EmptyString => (0, Some "invalid syntax")
    | _ => match digits 0 t with
           | Some n => (if neg then - n else n, None)
           | None => (0, Some "invalid syntax")
           end
    end in
  match s with
  | String "-" t => parse true t
  | String "+" t => parse false t
  | _ => parse false s
  end.

Definition encode (q : gmap string (list string)) : string :=
  Join (map (fun kv => fst kv +:+ "=" +:+ hd "" (snd kv)) (map_to_list q)) "&".

(** [s] cut at the first [sep]: the text before it and, if [sep] occurs,
    the text after it. *)
Fixpoint cut (sep : ascii) (s : string) : string * option string :=
  match s with
  | EmptyString => (EmptyString, None)
  | String c rest =>
      if Ascii.eqb c sep then (EmptyString, Some rest)
      else let '(l, r) := cut sep rest in (String c l, r)
  end.

Fixpoint splitOn (fuel : nat) (sep : ascii) (s : string) : list string :=
  match fuel with
  | O => [s]
  | S fuel =>
      match cut sep s with
      | (l, None) => [l]
      | (l, Some r) => l :: splitOn fuel sep r
      end
  end.

Definition parseQuery (raw : string) : gmap string (list string) :=
  if String.eqb raw "" then ∅
  else
    fold_right
      (fun kv (q : gmap string (list string)) =>
         let '(k, v) := cut "=" kv in <[k := [default "" v]]> q)
      ∅ (splitOn (String.length raw) "&" raw).

Definition parse (s : string) : string + string * string :=
  if String.eqb s "" then inl "empty url"
  else let '(base, raw) := cut "?" s in inr (base, default "" raw).

Definition page1 : Events string :=
  {| Events_Events := ["e1"; "e2"]; Events_NextPageKey := "1" |}.
Definition page2 : Events string :=
  {| Events_Events := ["e3"]; Events_NextPageKey := "2" |}.
Definition page3 : Events string :=
  {| Events_Events := ["e4"]; Events_NextPageKey := "0" |}.
Definition pageX : Events string :=
  {| Events_Events := ["e5"]; Events_NextPageKey := "next" |}.

Definition eventPages : list (string * Events string) :=
  [ ("<events 1>", page1); ("<events 2>", page2); ("<events 3>", page3);
    ("<events x>", pageX);
    ("<no events>", {| Events_Events := []; Events_NextPageKey := "" |}) ].

Definition projectPages : list (string * Projects string) :=
  [ ("<projects 1>", {| Projects_Projects := ["p1"]; Projects_NextPageKey := "1" |});
    ("<projects 2>", {| Projects_Projects := ["p2"; "p3"]; Projects_NextPageKey := "" |}) ].

Definition env : Externals := {|
  Project := string;
  KeptnContextExtendedCE := string;
  Error_FromJSON :=
    decodeWith [ ("{}", {| Message := None |});
                 (messageBody "boom", {| Message := Some "boom" |}) ];
  EventContext_FromJSON :=
    decodeWith [ ("{}", {| KeptnContext := None |}) ];
  Project_FromJSON := decodeWith [ ("<project>", "p1") ];
  Projects_FromJSON := decodeWith projectPages;
  Events_FromJSON := decodeWith eventPages;
  ErrWithStatusCode := "error with status code %d";
  URL := string * string;
  url_Parse := parse;
  url_Query := fun u => parseQuery (snd u);
  url_withRawQuery := fun u q => (fst u, q);
  url_String := fun u => if String.eqb (snd u) "" then fst u else fst u +:+ "?" +:+ snd u;
  Values_Encode := encode;
  CanonicalHeaderKey := fun k => k;
  NewRequest_error := fun _ _ => None;
  Net := nat;
  Atoi := atoi;
  Duration := Z;
  Duration_String := fun d => itoa d +:+ "ns";
  elapse := fun _ n => n;
  Context := bool
|}.

(** A client that answers the [n]-th request from a script. *)
Definition client (script : nat -> Request -> string + Response) : @Client env :=
  fun req n => (script n req, S n).

Definition reply (code : Z) (status body : string) : string + Response :=
  inr {| StatusCode := code; Status := status; Body := inr (b body) |}.

(** An executor that answers the [n]-th request from a script; a context
    that is [true] has been cancelled, and the request then fails with the
    text of [context.Canceled]. *)
Definition executor (script : nat -> string -> bytes * option Error) : @ExecutorV2 env := {|
  getAndExpectOK := fun (ctx : @Context env) uri _ n =>
    if (ctx : bool) then (([], Some {| Message := Some "context canceled" |}), S n)
    else (script n uri, S n)
|}.

Definition legacyCodec : LegacyCodec := {|
  LegacyProject := string;
  Unmarshal_Error :=
    decodeWith [ ("{}", {| Message := None |});
                 (messageBody "boom", {| Message := Some "boom" |}) ];
  Unmarshal_Project := decodeWith [ ("<project>", "p1") ]
|}.

Definition world (n : nat) (t : list (@Effect env)) : @World env := @Build_World env n t.

Definition world0 : @World env := world 0 [].

Definition api (header token : string) (c : @Client env) : @APIService env :=
  {| getBaseURL := "api.example"; getAuthToken := token; getAuthHeader := header;
     getHTTPClient := c |}.

Definition eventHandler (header token : string) : @V2.EventHandler env :=
  {| V2.BaseURL := "api.example/mongodb-datastore"; V2.AuthToken := token;
     V2.AuthHeader := header; V2.HTTPClient := client (fun _ _ => inl "unused");
     V2.Scheme := "http" |}.

Definition projectHandler (c : @Client env) : @Api.ProjectHandler env :=
  {| Api.BaseURL := "api.example/controlPlane"; Api.AuthToken := "";
     Api.AuthHeader := ""; Api.HTTPClient := c; Api.Scheme := "http" |}.

Definition noFilter (numberOfPages : Z) : V2.EventFilter :=
  {| V2.Project := "sockshop"; V2.Stage := ""; V2.Service := ""; V2.EventType := "";
     V2.KeptnContext := ""; V2.EventID := ""; V2.PageSize := "";
     V2.NumberOfPages := numberOfPages; V2.FromTime := "" |}.

(** The script of a backend with three pages of events. *)
Definition threePages (n : nat) (uri : string) : bytes * option Error :=
  match n with
  | 0%nat => (b "<events 1>", None)
  | 1%nat => (b "<events 2>", None)
  | _ => (b "<events 3>", None)
  end.

(** A backend with three pages of events, addressed by cursor; the body of
    the first page is a parameter. *)
Definition eventsURI : string := "http://api.example/events".

Definition pagedBackend (first : string) (n : nat) (uri : string) : bytes * option Error :=
  if String.eqb uri "http://api.example/events?nextPageKey=1" then (b "<events 2>", None)
  else if String.eqb uri "http://api.example/events?nextPageKey=2" then (b "<events 3>", None)
  else if String.eqb uri "http://api.example/events?nextPageKey=next" then (b "<events 2>", None)
  else (b first, None).

Definition eventsURL : @URL env := (eventsURI, "").

(** A client that gives every request the same answer. *)
Definition constantClient (code : Z) (status body : string) : @Client env :=
  client (fun _ _ => reply code status body).

Definition projectsURL : @URL env := ("http://api.example/controlPlane/v1/project", "").

(** A backend on which the event appears after [m] empty answers. *)
Definition eventuallyThere (m : nat) (n : nat) (uri : string) : bytes * option Error :=
  if (n <? m)%nat then (b "<no events>", None) else (b "<events 3>", None).

End Sample.

(** * Vocabulary of the properties *)

(** The fragment a required field contributes, in the spec's words: its
    message when the field is empty, nothing otherwise. *)
Definition fragmentOf (value message : string) : list string :=
  if bool_decide (value = "") then [message] else [].

Definition specFragments (s : SequenceUtils.SequenceControlParams) : list string :=
  fragmentOf (SequenceUtils.Project s) "project parameter not set"
  ++ fragmentOf (SequenceUtils.KeptnContext s) "keptn context parameter not set"
  ++ fragmentOf (SequenceUtils.State s) "sequence state parameter not set".

(** A result whose error component is nil. *)
Definition succeeded {A E : Type} (o : Outcome (A * option E)) : Prop :=
  match o with
  | Ret (_, None) => True
  | _ => False
  end.

(** A page cursor that ends the pagination. *)
Definition sentinel (key : string) : Prop := key = "" \/ key = "0".

Section Vocabulary.

Context {X : Externals} {E2 : ExecutorV2}.

(** The header map of a request that carries the content type only. *)
Definition contentTypeOnly : gmap string (list string) :=
  {[ CanonicalHeaderKey "Content-Type" := ["application/json"] ]}.

(** There is nothing to decode, or the body decodes. *)
Definition decodesEventContext (body : bytes) : Prop :=
  body = [] \/ exists ec, EventContext_FromJSON body = inr ec.

Definition decodesProject (body : bytes) : Prop :=
  body = [] \/ exists pr, Project_FromJSON body = inr pr.

(** What an operation holds of the response [resp] whose body read as [b],
    and the world after the one request that was answered. *)
Definition replyOf (resp : Response) (b : bytes) : Api.Reply :=
  {| Api.code := StatusCode resp; Api.status := Status resp; Api.body := b |}.

Definition afterRequest (w : World) (n' : Net) (method url : string) : World :=
  {| net := n'; trace := trace w ++ [EvRequest method url] |}.

(** [served ctx e u key n pages n']: from the network state [n], the
    executor answers the request for the cursor [key] with the first of
    [pages], the request for that page's [nextPageKey] with the second, and
    so on, every answer being a body that decodes to the page; [n'] is the
    state after the last of them. *)
Inductive served (ctx : Context) (e : V2.EventHandler) (u : URL)
  : string -> Net -> list (Events KeptnContextExtendedCE) -> Net -> Prop :=
| served_nil key n : served ctx e u key n [] n
| served_cons key n body n1 page pages n2 :
    getAndExpectOK ctx (Api.pageURL u key) (V2.EventHandler_api e) n = ((body, None), n1) ->
    Events_FromJSON body = inr page ->
    served ctx e u (Events_NextPageKey page) n1 pages n2 ->
    served ctx e u key n (page :: pages) n2.

(** The requests that fetch [pages] starting from the cursor [key]. *)
Fixpoint requests (u : URL) (key : string) (pages : list (Events KeptnContextExtendedCE))
  : list Effect :=
  match pages with
  | [] => []
  | page :: rest =>
      EvRequest "GET" (Api.pageURL u key) :: requests u (Events_NextPageKey page) rest
  end.

Definition allEvents (pages : list (Events KeptnContextExtendedCE))
  : list KeptnContextExtendedCE :=
  List.concat (map Events_Events pages).

(** The request [GetAllProjects] sends for the cursor [key]. *)
Definition projectsRequest (p : Api.ProjectHandler) (u : URL) (key : string) : Request :=
  Api.addAuthHeader
    (setHeader {| Method := "GET"; RequestURI := Api.pageURL u key;
                  ReqHeader := ∅; ReqBody := None |}
       "Content-Type" "application/json")
    (Api.ProjectHandler_api p).

(** The same as [served], for the client of a project handler: every
    answer has status 200 and a body that reads and decodes to the page. *)
Inductive servedProjects (p : Api.ProjectHandler) (u : URL)
  : string -> Net -> list (Projects Project) -> Net -> Prop :=
| servedProjects_nil key n : servedProjects p u key n [] n
| servedProjects_cons key n resp body n1 page pages n2 :
    Api.HTTPClient p (projectsRequest p u key) n = (inr resp, n1) ->
    StatusCode resp = 200 ->
    Body resp = inr body ->
    Projects_FromJSON body = inr page ->
    servedProjects p u (Projects_NextPageKey page) n1 pages n2 ->
    servedProjects p u key n (page :: pages) n2.

Fixpoint projectRequests (u : URL) (key : string) (pages : list (Projects Project))
  : list Effect :=
  match pages with
  | [] => []
  | page :: rest =>
      EvRequest "GET" (Api.pageURL u key)
        :: projectRequests u (Projects_NextPageKey page) rest
  end.

Definition allProjects (pages : list (Projects Project)) : list Project :=
  List.concat (map Projects_Projects pages).

(** Counting in a trace. *)
Definition isRequest (ev : Effect) : bool :=
  match ev with EvRequest _ _ => true | _ => false end.

Definition isFetch (ev : Effect) : bool :=
  match ev with EvFetch => true | _ => false end.

Definition requestCount (t : list Effect) : nat := length (List.filter isRequest t).

Definition fetchCount (t : list Effect) : nat := length (List.filter isFetch t).

Definition sleepsOf (t : list Effect) : list Duration :=
  flat_map (fun ev => match ev with EvSleep d => [d] | _ => [] end) t.

Definition onlyRequests (t : list Effect) : Prop :=
  Forall (fun ev => isRequest ev = true) t.

(** [failing fuel ctx e filter d m w w']: starting in [w], each of the next
    [m] fetches returns, without a satisfactory result (an error, or no
    event), and is followed by a pause of [d]; [w'] is the world after the
    last pause. *)
Inductive failing (fuel : nat) (ctx : Context) (e : V2.EventHandler)
          (filter : V2.EventFilter) (d : Duration) : nat -> World -> World -> Prop :=
| failing_O w : failing fuel ctx e filter d O w w
| failing_S m w r w1 w2 :
    V2.GetEventsWithContext fuel ctx e filter w = Some (Ret r, w1) ->
    V2.satisfactory r = false ->
    failing fuel ctx e filter d m (sleep d w1) w2 ->
    failing fuel ctx e filter d (S m) w w2.

End Vocabulary.

(** ** Further test doubles *)

Module SampleMore.

Import Sample.

(** An instance that differs from [Sample.env] in one respect: a URL with
    a blank in it neither parses nor makes a request. *)
Definition blankError (url : string) : option string :=
  if GoStrings.Contains url " " then Some "invalid character in URL" else None.

Definition strictEnv : Externals := {|
  Project := string;
  KeptnContextExtendedCE := string;
  Error_FromJSON := @Error_FromJSON env;
  EventContext_FromJSON := @EventContext_FromJSON env;
  Project_FromJSON := @Project_FromJSON env;
  Projects_FromJSON := @Projects_FromJSON env;
  Events_FromJSON := @Events_FromJSON env;
  ErrWithStatusCode := "error with status code %d";
  URL := string * string;
  url_Parse := fun s => match blankError s with Some err => inl err | None => parse s end;
  url_Query := fun u => parseQuery (snd u);
  url_withRawQuery := fun u q => (fst u, q);
  url_String := fun u => if String.eqb (snd u) "" then fst u else fst u +:+ "?" +:+ snd u;
  Values_Encode := encode;
  CanonicalHeaderKey := fun k => k;
  NewRequest_error := fun _ url => blankError url;
  Net := nat;
  Atoi := atoi;
  Duration := Z;
  Duration_String := fun d => itoa d +:+ "ns";
  elapse := fun _ n => n;
  Context := bool
|}.

Definition strictWorld0 : @World strictEnv := @Build_World strictEnv 0%nat [].

Definition strictClient : @Client strictEnv :=
  fun _ (n : nat) => (inl "unused", n).

Definition strictApi : @APIService strictEnv :=
  @Build_APIService strictEnv "api.example" "" "" strictClient.

Definition strictExecutor : @ExecutorV2 strictEnv :=
  @Build_ExecutorV2 strictEnv
    (fun _ _ _ (n : nat) => ((b "<no events>", None), S n)).

Definition strictHandler : @V2.EventHandler strictEnv :=
  @V2.Build_EventHandler strictEnv "api example" "" "" strictClient "http".

Definition netHTTP : NetHTTP := {|
  TransportFields := nat;
  zeroTransportFields := 0%nat;
  TLSFields := unit;
  zeroTLSFields := tt;
  ClientFields := nat;
  zeroClientFields := 0%nat;
  ProxyFunc := unit;
  ProxyFromEnvironment := tt;
  CustomRoundTripper := string
|}.

(** A project without a name does not marshal. *)
Definition marshal (project : string) : string + bytes :=
  if String.eqb project "" then inl "json: unsupported value"
  else inr (b ("<project " +:+ project +:+ ">")).

Definition collaborators : @Collaborators env netHTTP :=
  @Build_Collaborators env netHTTP
    "controlPlane"
    marshal
    (fun project : string => project)
    false
    (fun s => GoStrings.TrimPrefix (GoStrings.TrimPrefix s "http://") "https://")
    (fun _ _ _ (n : nat) => ((b "<project>", None), S n))
    (fun _ => client (fun _ _ => inl "no network")).

(** A client that fails every exchange. *)
Definition brokenClient : @Client env := client (fun _ _ => inl "connection refused").

(** A backend whose second answer is an error. *)
Definition failsSecond (n : nat) (uri : string) : bytes * option Error :=
  match n with
  | O => (b "<events 1>", None)
  | _ => ([], Some {| Message := Some "backend unavailable" |})
  end.

(** A backend that declares the cursor "1" on every page. *)
Definition endless (n : nat) (uri : string) : bytes * option Error :=
  (b "<events 1>", None).

(** Two pages of projects, by the number of the request. *)
Definition projectsBackend (n : nat) (uri : string) : bytes * option Error :=
  match n with
  | O => (b "<projects 1>", None)
  | _ => (b "<projects 2>", None)
  end.

Definition projectsClient : @Client env :=
  client (fun n _ => match n with
                     | O => reply 200 "200 OK" "<projects 1>"
                     | _ => reply 200 "200 OK" "<projects 2>"
                     end).

Definition projectPage1 : Projects string :=
  {| Projects_Projects := ["p1"]; Projects_NextPageKey := "1" |}.
Definition projectPage2 : Projects string :=
  {| Projects_Projects := ["p2"; "p3"]; Projects_NextPageKey := "" |}.

Definition projectHandlerV2 : @ProjectUtilsV2.ProjectHandler env :=
  @ProjectUtilsV2.Build_ProjectHandler env "api.example/controlPlane" "" ""
    (client (fun _ _ => inl "unused")) "http".

End SampleMore.

(** * Vocabulary of the further properties *)

(** No character of [s] is a percent sign. *)
Fixpoint noPercent (s : string) : bool :=
  match s with
  | EmptyString => true
  | String c rest => negb (Ascii.eqb c "%") && noPercent rest
  end.

Section MoreVocabulary.

Context {X : Externals} {E2 : ExecutorV2} {N : NetHTTP} {Co : Collaborators}.

(** The client fails the exchange with [err]: it returns the error itself,
    or a response whose body cannot be read. *)
Definition exchangeFails (c : Client) (n n' : Net) (err : string) : Prop :=
  (forall req, c req n = (inl err, n'))
  \/ (exists resp, Body resp = inl err /\ forall req, c req n = (inr resp, n')).

(** The message of a returned [*models.Error]. *)
Definition errorMessage {A : Type} (o : Outcome (A * option Error)) : option string :=
  match o with
  | Ret (_, Some e) => Message e
  | _ => None
  end.

(** The cursor the driver holds after reading [pages] from the cursor
    [key]. *)
Definition cursorAfter (key : string) (pages : list (Events KeptnContextExtendedCE))
  : string :=
  fold_left (fun _ page => Events_NextPageKey page) pages key.

(** The filter field that goes under a query key, if the key is one of the
    eight the filter fills. *)
Definition filterValue (filter : V2.EventFilter) (key : string) : option string :=
  if String.eqb key "project" then Some (V2.Project filter)
  else if String.eqb key "stage" then Some (V2.Stage filter)
  else if String.eqb key "service" then Some (V2.Service filter)
  else if String.eqb key "keptnContext" then Some (V2.KeptnContext filter)
  else if String.eqb key "eventID" then Some (V2.EventID filter)
  else if String.eqb key "type" then Some (V2.EventType filter)
  else if String.eqb key "pageSize" then Some (V2.PageSize filter)
  else if String.eqb key "fromTime" then Some (V2.FromTime filter)
  else None.

(** The same as [servedProjects], for the executor of the v2 package. *)
Inductive servedProjectsV2 (ctx : Context) (p : ProjectUtilsV2.ProjectHandler) (u : URL)
  : string -> Net -> list (Projects Project) -> Net -> Prop :=
| servedProjectsV2_nil key n : servedProjectsV2 ctx p u key n [] n
| servedProjectsV2_cons key n body n1 page pages n2 :
    getAndExpectOK ctx (Api.pageURL u key) (ProjectUtilsV2.ProjectHandler_api p) n
    = ((body, None), n1) ->
    Projects_FromJSON body = inr page ->
    servedProjectsV2 ctx p u (Projects_NextPageKey page) n1 pages n2 ->
    servedProjectsV2 ctx p u key n (page :: pages) n2.

End MoreVocabulary.

(** * Properties *)

(** ** Strings *)

Lemma Contains_middle (a p c : string) : Contains p (a +:+ p +:+ c).
Proof. exists a, c. reflexivity. Qed.

Lemma string_app_cons (x : ascii) (a c : string) :
  String x a +:+ c = String x (a +:+ c).
Proof. reflexivity. Qed.

Lemma string_app_assoc (a c d : string) : (a +:+ c) +:+ d = a +:+ (c +:+ d).
Proof.
  induction a as [|x a IH]; [reflexivity|].
  rewrite !string_app_cons. now rewrite IH.
Qed.

Lemma string_app_nil_r (a : string) : a +:+ "" = a.
Proof.
  induction a as [|x a IH]; [reflexivity|].
  rewrite string_app_cons. now rewrite IH.
Qed.

Lemma Contains_suffix (a p : string) : Contains p (a +:+ p).
Proof. exists a, "". now rewrite string_app_nil_r. Qed.

Lemma Contains_app_r (a p s : string) : Contains p s -> Contains p (a +:+ s).
Proof.
  intros (pre & post & ->). exists (a +:+ pre), post.
  now rewrite string_app_assoc.
Qed.

Lemma string_length_app (a c : string) :
  String.length (a +:+ c) = (String.length a + String.length c)%nat.
Proof.
  induction a as [|x a IH]; [reflexivity|].
  rewrite string_app_cons. simpl. now rewrite IH.
Qed.

Lemma Contains_length (p s : string) :
  Contains p s -> (String.length p <= String.length s)%nat.
Proof. intros (pre & post & ->). rewrite !string_length_app. lia. Qed.

Lemma eqb_empty_false (s : string) : s <> "" -> String.eqb s "" = false.
Proof. intros H. now apply String.eqb_neq. Qed.

Lemma nonEmpty_true (s : string) : nonEmpty s = true <-> s <> "".
Proof.
  unfold nonEmpty. rewrite negb_true_iff. apply String.eqb_neq.
Qed.

Lemma nonEmpty_false (s : string) : nonEmpty s = false <-> s = "".
Proof.
  unfold nonEmpty. rewrite negb_false_iff. apply String.eqb_eq.
Qed.

(** ** Validation of sequence control parameters *)

Section ValidateFacts.

Import SequenceUtils.

Lemma missingFragments_spec (s : SequenceControlParams) :
  missingFragments s = specFragments s.
Proof.
  unfold missingFragments, specFragments, fragmentOf.
  destruct s as [p k g t]; simpl.
  repeat case_bool_decide; subst; simpl;
    repeat match goal with
      | H : ?x <> "" |- context [String.eqb ?x ""] => rewrite (eqb_empty_false x H)
      end; reflexivity.
Qed.

Lemma specFragments_nil (s : SequenceControlParams) :
  specFragments s = [] <-> Project s <> "" /\ KeptnContext s <> "" /\ State s <> "".
Proof.
  unfold specFragments, fragmentOf.
  repeat case_bool_decide; simpl; intuition (discriminate || congruence).
Qed.


End ValidateFacts.

(** ** The error mapper and the auth header *)

Section MapperFacts.

Context {X : Externals}.

Lemma handleErrStatusCode_malformed (statusCode : Z) (body : bytes) (err : string) :
  Error_FromJSON body = inl err ->
  Api.handleErrStatusCode statusCode body = Ret (Sprintf_d ErrWithStatusCode statusCode).
Proof. intros H. unfold Api.handleErrStatusCode. now rewrite H. Qed.

Lemma handleErrStatusCode_message (statusCode : Z) (body : bytes) (m : string) :
  Error_FromJSON body = inr {| Message := Some m |} ->
  Api.handleErrStatusCode statusCode body = Ret m.
Proof. intros H. unfold Api.handleErrStatusCode. now rewrite H. Qed.

(** C1. A non-success body that is valid JSON without the [message] field
    decodes to an envelope whose [Message] is nil, and [handleErrStatusCode]
    then panics on the nil dereference instead of returning the generic
    status-code error. *)
Theorem handleErrStatusCode_missing_message (statusCode : Z) (body : bytes) :
  Error_FromJSON body = inr {| Message := None |} ->
  Api.handleErrStatusCode statusCode body = Panic nilDeref.
Proof. intros H. unfold Api.handleErrStatusCode. now rewrite H. Qed.

Lemma mapped_error_not_succeeded {A E : Type} (zero : A) (o : Outcome string)
      (wrap : string -> option E) :
  (forall e, wrap e <> None) ->
  ~ succeeded (bind o (fun e => Ret (zero, wrap e))).
Proof.
  intros W. destruct o as [e| |]; simpl; try tauto.
  specialize (W e). destruct (wrap e); tauto.
Qed.

Lemma writeFailure_not_succeeded {A : Type} (zero : A) (r : Api.Reply) :
  ~ succeeded (Api.writeFailure zero r).
Proof.
  unfold Api.writeFailure. destruct (0 <? len (Api.body r)).
  - apply (mapped_error_not_succeeded zero _ (fun e => Some (Api.buildErrorResponse e))).
    discriminate.
  - simpl. tauto.
Qed.

Lemma Header_Get_Set (h : gmap string (list string)) (key value : string) :
  Header_Get (Header_Set h key value) key = value.
Proof. unfold Header_Get, Header_Set. now rewrite lookup_insert_eq. Qed.

Lemma both_set_bool (header token : string) :
  nonEmpty header && nonEmpty token = bool_decide (header <> "" /\ token <> "").
Proof.
  case_bool_decide as D.
  - destruct D as [H T]. apply nonEmpty_true in H, T. now rewrite H, T.
  - apply andb_false_iff.
    destruct (nonEmpty header) eqn:H; [|now left].
    destruct (nonEmpty token) eqn:T; [|now right].
    exfalso. apply D. split; now apply nonEmpty_true.
Qed.

Lemma addAuthHeader_cases (req : Request) (api : APIService) :
  Api.addAuthHeader req api
  = (if bool_decide (getAuthHeader api <> "" /\ getAuthToken api <> "")
     then setHeader req (getAuthHeader api) (getAuthToken api) else req).
Proof. unfold Api.addAuthHeader. now rewrite both_set_bool. Qed.

Lemma buildRequest_headers (api : APIService) (method uri : string) (data : option bytes) :
  match Api.buildRequest method uri data api with
  | inr built =>
      ReqHeader built
      = (if bool_decide (getAuthHeader api <> "" /\ getAuthToken api <> "")
         then <[CanonicalHeaderKey (getAuthHeader api) := [getAuthToken api]]> contentTypeOnly
         else contentTypeOnly)
  | inl err => NewRequest_error method uri = Some err
  end.
Proof.
  unfold Api.buildRequest, NewRequest.
  destruct (NewRequest_error method uri) as [err|]; [reflexivity|].
  rewrite addAuthHeader_cases.
  case_bool_decide; simpl; unfold Header_Set, contentTypeOnly;
    now rewrite insert_empty.
Qed.

(** A request built with an empty header name or an empty token holds no
    header under the auth header's key, unless that key is the content
    type's own. *)
Lemma auth_header_absent (api : APIService) (method uri : string)
      (data : option bytes) (built : Request) :
  getAuthHeader api = "" \/ getAuthToken api = "" ->
  CanonicalHeaderKey (getAuthHeader api) <> CanonicalHeaderKey "Content-Type" ->
  Api.buildRequest method uri data api = inr built ->
  ReqHeader built !! CanonicalHeaderKey (getAuthHeader api) = None.
Proof.
  intros E N B.
  pose proof (buildRequest_headers api method uri data) as S.
  rewrite B in S. rewrite S.
  case_bool_decide as D.
  - destruct D, E; contradiction.
  - unfold contentTypeOnly. rewrite lookup_singleton_ne; [reflexivity|congruence].
Qed.

(** C7. [addAuthHeader], in both packages, sets the header named by the
    credentials to the token when the header name and the token are both
    non-empty, and returns the request unchanged otherwise.  The request an
    operation builds therefore carries, next to the content type, the auth
    header with the token in the first case and the content type alone in
    the second; reading the auth header back gives the token in the first
    case and what the request held before in the second.  [addAuthHeader]
    is a total function on requests: it has no error result. *)
Theorem addAuthHeader_spec (req : Request) (api : APIService)
        (method uri : string) (data : option bytes) :
  let header := getAuthHeader api in
  let token := getAuthToken api in
  let both := bool_decide (header <> "" /\ token <> "") in
  Api.addAuthHeader req api = (if both then setHeader req header token else req)
  /\ Legacy.addAuthHeader req api = (if both then setHeader req header token else req)
  /\ Header_Get (ReqHeader (Api.addAuthHeader req api)) header
     = (if both then token else Header_Get (ReqHeader req) header)
  /\ match Api.buildRequest method uri data api with
     | inr built =>
         ReqHeader built
         = (if both then <[CanonicalHeaderKey header := [token]]> contentTypeOnly
            else contentTypeOnly)
     | inl err => NewRequest_error method uri = Some err
     end.
Proof.
  intros header token both.
  split; [apply addAuthHeader_cases|]. split.
  { unfold Legacy.addAuthHeader. fold header token. now rewrite both_set_bool. }
  split.
  { rewrite addAuthHeader_cases. fold header token both.
    destruct both; [|reflexivity]. simpl. apply Header_Get_Set. }
  apply buildRequest_headers.
Qed.

End MapperFacts.

(** ** Single-shot operations on an answered request *)

Section SingleShot.

Context {X : Externals}.

Variables (p : Api.ProjectHandler) (uri : string) (w : World).
Variables (resp : Response) (b : bytes) (n' : Net).

(** The request can be built, the client answers it with [resp], and the
    body of [resp] reads as [b]. *)
Hypothesis request_ok : forall method url, NewRequest_error method url = None.
Hypothesis answered : forall req, Api.HTTPClient p req (net w) = (inr resp, n').
Hypothesis read_ok : Body resp = inr b.

Abbreviation api := (Api.ProjectHandler_api p).
Abbreviation reply := (replyOf resp b).
Abbreviation after := (afterRequest w n').

Lemma roundTrip_answered (method : string) (data : option bytes) :
  Api.roundTrip method uri data api w = (inr reply, after method uri).
Proof using request_ok answered read_ok.
  unfold Api.roundTrip, Api.buildRequest, NewRequest.
  rewrite request_ok. unfold Do. simpl. rewrite answered, read_ok.
  unfold afterRequest, replyOf. repeat f_equal;
    unfold Api.addAuthHeader; destruct (_ && _); reflexivity.
Qed.

Ltac run_op :=
  rewrite roundTrip_answered; simpl;
  repeat match goal with
    | |- context [(200 <=? ?c) && (?c <=? 204)] =>
        destruct (Z.leb_spec 200 c); destruct (Z.leb_spec c 204); simpl
    | |- context [(200 <=? ?c) && (?c <? 300)] =>
        destruct (Z.leb_spec 200 c); destruct (Z.ltb_spec c 300); simpl
    end.

Lemma len_pos_nonempty {A} (l : list A) : (0 <? len l) = true <-> l <> [].
Proof.
  unfold len. destruct l; simpl; split; intros; try discriminate; try congruence.
  apply Z.ltb_lt. lia.
Qed.

Lemma eventContext_branch (body : bytes) (w' : World) :
  succeeded (fst (if 0 <? len body
                  then (Ret (Api.decodeEventContext body), w')
                  else (Ret (None, None), w')))
  <-> decodesEventContext body.
Proof.
  unfold decodesEventContext, Api.decodeEventContext.
  destruct (0 <? len body) eqn:L; simpl.
  - apply len_pos_nonempty in L.
    destruct (EventContext_FromJSON body) as [e|ec]; simpl; split; try tauto.
    + intros [?|[? ?]]; [contradiction|discriminate].
    + intros _. right. now exists ec.
  - split; [|tauto]. intros _. left.
    destruct body; [reflexivity|]. unfold len in L. simpl in L.
    apply Z.ltb_ge in L. lia.
Qed.

Lemma plain_branch (body : bytes) (w' : World) :
  succeeded (fst (if 0 <? len body
                  then (Ret (string_of_bytes body, @None Error), w')
                  else (Ret ("", None), w'))).
Proof. destruct (0 <? len body); simpl; exact I. Qed.

Lemma post_band (data : bytes) :
  succeeded (fst (Api.post uri data api w)) <-> 200 <= StatusCode resp <= 204.
Proof using request_ok answered read_ok.
  unfold Api.post. run_op;
    try (split; [lia|intros _; apply plain_branch]);
    (split; [intros F; now apply writeFailure_not_succeeded in F | lia]).
Qed.

Lemma put_band (data : bytes) :
  succeeded (fst (Api.put uri data api w)) <-> 200 <= StatusCode resp <= 204.
Proof using request_ok answered read_ok.
  unfold Api.put. run_op;
    try (split; [lia|intros _; apply plain_branch]);
    (split; [intros F; now apply writeFailure_not_succeeded in F | lia]).
Qed.

Lemma postWithEventContext_band (data : bytes) :
  succeeded (fst (Api.postWithEventContext uri data api w))
  <-> 200 <= StatusCode resp <= 204 /\ decodesEventContext b.
Proof using request_ok answered read_ok.
  unfold Api.postWithEventContext. run_op;
    try (rewrite eventContext_branch; split; [intros; split; [lia|assumption] | tauto]);
    (split; [intros F; now apply writeFailure_not_succeeded in F | lia]).
Qed.

Lemma putWithEventContext_band (data : bytes) :
  succeeded (fst (Api.putWithEventContext uri data api w))
  <-> 200 <= StatusCode resp <= 204 /\ decodesEventContext b.
Proof using request_ok answered read_ok.
  unfold Api.putWithEventContext. run_op;
    try (rewrite eventContext_branch; split; [intros; split; [lia|assumption] | tauto]);
    (split; [intros F; now apply writeFailure_not_succeeded in F | lia]).
Qed.

Ltac mapped_failure :=
  split;
  [ intros F;
    now apply (mapped_error_not_succeeded _ _ (fun e => Some (Api.buildErrorResponse e))) in F
  | lia ].

Lemma delete_band :
  succeeded (fst (Api.delete uri api w)) <-> 200 <= StatusCode resp < 300.
Proof using request_ok answered read_ok.
  unfold Api.delete. run_op;
    try (split; [lia|intros _; apply plain_branch]); mapped_failure.
Qed.

Lemma deleteWithEventContext_band :
  succeeded (fst (Api.deleteWithEventContext uri api w))
  <-> 200 <= StatusCode resp < 300 /\ decodesEventContext b.
Proof using request_ok answered read_ok.
  unfold Api.deleteWithEventContext. run_op;
    try (rewrite eventContext_branch; split; [intros; split; [lia|assumption] | tauto]);
    mapped_failure.
Qed.

Lemma getProject_band :
  succeeded (fst (Api.getProject uri api w))
  <-> 200 <= StatusCode resp < 300 /\ decodesProject b.
Proof using request_ok answered read_ok.
  unfold Api.getProject. run_op; try mapped_failure.
  unfold decodesProject.
  destruct (0 <? len b) eqn:L; simpl.
  - apply len_pos_nonempty in L.
    destruct (Project_FromJSON b) as [e|pr]; simpl; split; try tauto.
    + intros [_ [?|[? ?]]]; [contradiction|discriminate].
    + intros _. split; [lia|]. right. now exists pr.
  - split; [|tauto]. intros _. split; [lia|]. left.
    destruct b; [reflexivity|]. unfold len in L. simpl in L.
    apply Z.ltb_ge in L. lia.
Qed.

(** *** The first page of [GetAllProjects] *)

Variable u : URL.
Hypothesis url_ok :
  url_Parse (Api.Scheme p +:+ "://" +:+ Api.BaseURL p +:+ Api.v1ProjectPath) = inr u.

Lemma GetAllProjects_not_OK (fuel : nat) :
  StatusCode resp <> 200 ->
  Api.GetAllProjects (S fuel) p w
  = Some (bind (Api.handleErrStatusCode (StatusCode resp) b) (fun e => Ret ([], Some e)),
          after "GET" (Api.pageURL u "")).
Proof using request_ok answered read_ok url_ok.
  intros N. unfold Api.GetAllProjects. simpl.
  rewrite url_ok. unfold NewRequest. rewrite request_ok.
  unfold Do. rewrite answered, read_ok.
  apply Z.eqb_neq in N. rewrite N. unfold afterRequest. simpl.
  repeat f_equal; unfold Api.addAuthHeader; destruct (_ && _); reflexivity.
Qed.

Lemma GetAllProjects_OK_last (fuel : nat) (page : Projects Project) :
  StatusCode resp = 200 ->
  Projects_FromJSON b = inr page ->
  Projects_NextPageKey page = "" \/ Projects_NextPageKey page = "0" ->
  Api.GetAllProjects (S fuel) p w
  = Some (Ret (Projects_Projects page, None), after "GET" (Api.pageURL u "")).
Proof using request_ok answered read_ok url_ok.
  intros C D L. unfold Api.GetAllProjects. simpl.
  rewrite url_ok. unfold NewRequest. rewrite request_ok.
  unfold Do. rewrite answered, read_ok.
  rewrite C. simpl. rewrite D.
  assert (S : String.eqb (Projects_NextPageKey page) ""
              || String.eqb (Projects_NextPageKey page) "0" = true).
  { destruct L as [-> | ->]; reflexivity. }
  rewrite S. unfold afterRequest. simpl.
  repeat f_equal; unfold Api.addAuthHeader; destruct (_ && _); reflexivity.
Qed.



End SingleShot.

(** ** The pagination driver *)

Section PaginationFacts.

Context {X : Externals} {E2 : ExecutorV2}.

Variables (ctx : Context) (e : V2.EventHandler) (uri : string) (u : URL).
Hypothesis uri_ok : url_Parse uri = inr u.

Lemma sentinel_eqb (key : string) :
  String.eqb key "" || String.eqb key "0" = true <-> sentinel key.
Proof.
  unfold sentinel. rewrite orb_true_iff, !String.eqb_eq. reflexivity.
Qed.

Lemma lastPage_true (k : Z) (page : Events KeptnContextExtendedCE) :
  V2.lastPage k page = true
  <-> sentinel (Events_NextPageKey page)
      \/ (0 < k /\ k <= fst (Atoi (Events_NextPageKey page))).
Proof.
  unfold V2.lastPage.
  destruct (String.eqb _ "" || String.eqb _ "0") eqn:S.
  - apply sentinel_eqb in S. tauto.
  - rewrite andb_true_iff, Z.ltb_lt, Z.leb_le. split; [tauto|].
    intros [H|H]; [|exact H]. apply sentinel_eqb in H. congruence.
Qed.

Lemma lastPage_false (k : Z) (page : Events KeptnContextExtendedCE) :
  V2.lastPage k page = false
  <-> ~ sentinel (Events_NextPageKey page)
      /\ (k <= 0 \/ fst (Atoi (Events_NextPageKey page)) < k).
Proof.
  rewrite <- not_true_iff_false, lastPage_true. split.
  - intros H. split; [tauto|].
    destruct (Z_lt_le_dec 0 k) as [P|P]; [|now left].
    destruct (Z_lt_le_dec (fst (Atoi (Events_NextPageKey page))) k) as [Q|Q];
      [now right|].
    exfalso. apply H. right. split; assumption.
  - intros [H1 H2] [H|[H3 H4]]; [contradiction|lia].
Qed.

(** One turn of the loop on a page that is served. *)
Lemma loop_turn (fuel : nat) (k : Z) (acc : list KeptnContextExtendedCE)
      (key : string) (w : World) (body : bytes) (n1 : Net)
      (page : Events KeptnContextExtendedCE) :
  getAndExpectOK ctx (Api.pageURL u key) (V2.EventHandler_api e) (net w) = ((body, None), n1) ->
  Events_FromJSON body = inr page ->
  V2.getEventsWithContext_loop (S fuel) ctx e uri k acc key w
  = let w' := {| net := n1; trace := trace w ++ [EvRequest "GET" (Api.pageURL u key)] |} in
    if V2.lastPage k page
    then Some ((acc ++ Events_Events page, None), w')
    else V2.getEventsWithContext_loop fuel ctx e uri k (acc ++ Events_Events page)
           (Events_NextPageKey page) w'.
Proof using uri_ok.
  intros G D. simpl. rewrite uri_ok. unfold V2.callGetAndExpectOK.
  rewrite G, D. reflexivity.
Qed.

(** The loop runs through the pages it is served until the first page on
    which [lastPage] holds. *)
Lemma loop_run (k : Z) (init : list (Events KeptnContextExtendedCE))
      (final : Events KeptnContextExtendedCE) :
  forall (key : string) (w : World) (n2 : Net) (acc : list KeptnContextExtendedCE)
         (fuel : nat),
    served ctx e u key (net w) (init ++ [final]) n2 ->
    Forall (fun q => V2.lastPage k q = false) init ->
    V2.lastPage k final = true ->
    (length init < fuel)%nat ->
    V2.getEventsWithContext_loop fuel ctx e uri k acc key w
    = Some ((acc ++ allEvents (init ++ [final]), None),
            {| net := n2; trace := trace w ++ requests u key (init ++ [final]) |}).
Proof using uri_ok.
  induction init as [|page rest IH]; intros key w n2 acc fuel S F L Fu.
  - destruct fuel as [|fuel]; [simpl in Fu; lia|].
    inversion S as [|? ? body n1 ? ? ? G D S']; subst.
    inversion S'; subst.
    rewrite (loop_turn fuel k acc key w body n2 final G D). simpl.
    rewrite L. unfold allEvents. simpl. now rewrite app_nil_r.
  - destruct fuel as [|fuel]; [simpl in Fu; lia|].
    simpl in S. inversion S as [|? ? body n1 ? ? ? G D S']; subst.
    inversion F as [|? ? Fp Fr]; subst.
    rewrite (loop_turn fuel k acc key w body n1 page G D). simpl.
    rewrite Fp.
    rewrite (IH (Events_NextPageKey page) _ n2 (acc ++ Events_Events page) fuel);
      try assumption; [|simpl in Fu; lia].
    simpl. rewrite <- !app_assoc. reflexivity.
Qed.

Lemma requests_count (key : string) (pages : list (Events KeptnContextExtendedCE)) :
  requestCount (requests u key pages) = length pages.
Proof.
  revert key. unfold requestCount.
  induction pages as [|page rest IH]; intros key; simpl;
    [reflexivity | now rewrite IH].
Qed.

(** C3, as the code has it.  When the backend serves N pages, each under
    the cursor the page before it declares, no page before the last
    declares the cursor "" or "0", the last one does, and the page limit is
    not set (not positive) or no earlier cursor's number reaches it, then
    for any fuel of at least N turns the driver returns the pages' events
    concatenated in arrival order, with a nil error, after exactly the N
    requests for these pages and none after them. *)
Theorem pagination_concatenates (k : Z) (init : list (Events KeptnContextExtendedCE))
        (final : Events KeptnContextExtendedCE) (w : World) (n2 : Net) (fuel : nat) :
  served ctx e u "" (net w) (init ++ [final]) n2 ->
  Forall (fun q => ~ sentinel (Events_NextPageKey q)) init ->
  sentinel (Events_NextPageKey final) ->
  k <= 0 \/ Forall (fun q => fst (Atoi (Events_NextPageKey q)) < k) init ->
  (length (init ++ [final]) <= fuel)%nat ->
  V2.getEventsWithContext fuel ctx e uri k w
  = Some ((allEvents (init ++ [final]), None),
          {| net := n2; trace := trace w ++ requests u "" (init ++ [final]) |})
  /\ requestCount (requests u "" (init ++ [final])) = length (init ++ [final]).
Proof using uri_ok.
  intros S NS LS Lim Fu. split; [|apply requests_count].
  unfold V2.getEventsWithContext.
  rewrite (loop_run k init final "" w n2 [] fuel); try assumption.
  - reflexivity.
  - rewrite Forall_forall in *. intros q Q. apply lastPage_false.
    split; [now apply NS|]. destruct Lim as [Lim|Lim]; [now left|right].
    now apply Lim.
  - apply lastPage_true. now left.
  - rewrite length_app in Fu. simpl in Fu. lia.
Qed.

(** C4.  With a page limit [k > 0], the driver keeps fetching while the
    cursor of the page just read is not "" or "0" and its number is below
    [k], a cursor that is not a number counting as 0 without any error, and
    it stops at the first page whose cursor's number is at least [k]: it
    returns the events read so far, that page's included, and makes no
    further request, although no page declared "" or "0". *)
Theorem page_limit_stops (k : Z) (init : list (Events KeptnContextExtendedCE))
        (final : Events KeptnContextExtendedCE) (w : World) (n2 : Net) (fuel : nat) :
  0 < k ->
  served ctx e u "" (net w) (init ++ [final]) n2 ->
  Forall (fun q => ~ sentinel (Events_NextPageKey q)
                   /\ (fst (Atoi (Events_NextPageKey q)) < k
                       \/ exists err, Atoi (Events_NextPageKey q) = (0, Some err))) init ->
  ~ sentinel (Events_NextPageKey final) ->
  k <= fst (Atoi (Events_NextPageKey final)) ->
  (length (init ++ [final]) <= fuel)%nat ->
  V2.getEventsWithContext fuel ctx e uri k w
  = Some ((allEvents (init ++ [final]), None),
          {| net := n2; trace := trace w ++ requests u "" (init ++ [final]) |})
  /\ requestCount (requests u "" (init ++ [final])) = length (init ++ [final]).
Proof using uri_ok.
  intros K S I NF LF Fu. split; [|apply requests_count].
  unfold V2.getEventsWithContext.
  rewrite (loop_run k init final "" w n2 [] fuel); try assumption.
  - reflexivity.
  - rewrite Forall_forall in *. intros q Q. apply lastPage_false.
    destruct (I q Q) as [N [B|[err A]]]; split; try assumption; right;
      [assumption | rewrite A; simpl; lia].
  - apply lastPage_true. right. split; assumption.
  - rewrite length_app in Fu. simpl in Fu. lia.
Qed.

End PaginationFacts.

(** ** The retry driver *)

Section RetryFacts.

Context {X : Externals} {E2 : ExecutorV2}.

Lemma fetchCount_app (s t : list Effect) :
  fetchCount (s ++ t) = (fetchCount s + fetchCount t)%nat.
Proof. unfold fetchCount. now rewrite List.filter_app, length_app. Qed.

Lemma sleepsOf_app (s t : list Effect) : sleepsOf (s ++ t) = sleepsOf s ++ sleepsOf t.
Proof. unfold sleepsOf. apply flat_map_app. Qed.

Lemma onlyRequests_counts (t : list Effect) :
  onlyRequests t -> fetchCount t = 0%nat /\ sleepsOf t = [].
Proof.
  induction 1 as [|ev t R _ [IH1 IH2]]; [now split|].
  destruct ev; try discriminate.
  unfold fetchCount, sleepsOf in *. simpl. now split.
Qed.

Variables (ctx : Context) (e : V2.EventHandler).

Lemma loop_trace (uri : string) (k : Z) (fuel : nat) :
  forall acc key w r w',
    V2.getEventsWithContext_loop fuel ctx e uri k acc key w = Some (r, w') ->
    exists t, trace w' = trace w ++ t /\ onlyRequests t.
Proof.
  induction fuel as [|fuel IH]; intros acc key w r w' H; [discriminate|].
  simpl in H.
  destruct (url_Parse uri) as [err|u].
  { inversion H; subst. exists []. split; [now rewrite app_nil_r|constructor]. }
  unfold V2.callGetAndExpectOK in H.
  destruct (getAndExpectOK _ _ _ _) as [[body mErr] n1].
  assert (One : onlyRequests [EvRequest "GET" (Api.pageURL u key)])
    by (repeat constructor).
  destruct mErr as [m|].
  { inversion H; subst. eexists. split; [reflexivity|exact One]. }
  destruct (Events_FromJSON body) as [err|received].
  { inversion H; subst. eexists. split; [reflexivity|exact One]. }
  destruct (V2.lastPage k received).
  { inversion H; subst. eexists. split; [reflexivity|exact One]. }
  apply IH in H as (t & T & R). simpl in T.
  exists (EvRequest "GET" (Api.pageURL u key) :: t). split.
  - rewrite T, <- app_assoc. reflexivity.
  - constructor; [reflexivity|exact R].
Qed.

Variables (fuel : nat) (filter : V2.EventFilter).
Variables (maxRetries : Z) (d : Duration).

(** A fetch records its entry and then only requests. *)
Lemma GetEventsWithContext_trace (w : World) o (w' : World) :
  V2.GetEventsWithContext fuel ctx e filter w = Some (o, w') ->
  exists t, trace w' = trace w ++ EvFetch :: t /\ onlyRequests t.
Proof.
  unfold V2.GetEventsWithContext. intros H.
  destruct (url_Parse _) as [err|u].
  { inversion H; subst. exists []. split; [reflexivity|constructor]. }
  unfold V2.getEventsWithContext in H.
  destruct (V2.getEventsWithContext_loop _ _ _ _ _ _ _ _) as [[r w1]|] eqn:L;
    [|discriminate].
  inversion H; subst.
  apply loop_trace in L as (t & T & R). simpl in T.
  exists t. split; [|exact R]. rewrite T, <- app_assoc. reflexivity.
Qed.

Lemma failing_trace (m : nat) (w w' : World) :
  failing fuel ctx e filter d m w w' ->
  exists t, trace w' = trace w ++ t
            /\ fetchCount t = m /\ sleepsOf t = repeat d m.
Proof.
  induction 1 as [w|m w r w1 w2 G U F (t & T & C & Sl)].
  - exists []. rewrite app_nil_r. now repeat split.
  - apply GetEventsWithContext_trace in G as (t1 & T1 & R1).
    apply onlyRequests_counts in R1 as [C1 S1].
    exists ((EvFetch :: t1) ++ [EvSleep d] ++ t). split; [|split].
    + rewrite T. simpl. rewrite T1. rewrite <- !app_assoc. reflexivity.
    + rewrite !fetchCount_app, C.
      change (fetchCount (EvFetch :: t1)) with (S (fetchCount t1)).
      rewrite C1. reflexivity.
    + rewrite !sleepsOf_app, Sl.
      change (sleepsOf (EvFetch :: t1)) with (sleepsOf t1).
      rewrite S1. reflexivity.
Qed.

(** Unsatisfactory attempts use up turns of the loop and nothing else. *)
Lemma retryLoop_failing (m : nat) (w w' : World) :
  failing fuel ctx e filter d m w w' ->
  forall turns,
    V2.retryLoop (m + turns) fuel ctx e filter maxRetries d w
    = V2.retryLoop turns fuel ctx e filter maxRetries d w'.
Proof.
  induction 1 as [w|m w r w1 w2 G U F IH]; intros turns; [reflexivity|].
  simpl. rewrite G, U. apply IH.
Qed.

(** Whatever the attempts return, an error of the driver is the error of
    exhaustion: the error of an attempt is never handed to the caller. *)
Lemma retry_error_is_notFound (turns : nat) :
  forall w events err w',
    V2.retryLoop turns fuel ctx e filter maxRetries d w
    = Some (Ret (events, Some err), w') ->
    err = V2.notFound maxRetries d.
Proof.
  induction turns as [|turns IH]; intros w events err w' H; simpl in H.
  - now inversion H.
  - destruct (V2.GetEventsWithContext fuel ctx e filter w) as [[[r| |] w1]|];
      try discriminate.
    destruct (V2.satisfactory r); [discriminate|].
    now apply IH in H.
Qed.

Lemma notFound_names (n : Z) (delay : Duration) :
  Contains (itoa n) (V2.notFound n delay)
  /\ Contains (Duration_String delay) (V2.notFound n delay).
Proof.
  unfold V2.notFound. split.
  - apply Contains_middle.
  - apply Contains_app_r, Contains_app_r, Contains_suffix.
Qed.

(** C5.  When each of the first [m] attempts returns an error or no event
    and the next attempt returns at least one event with a nil error, with
    [m] below [maxRetries], the driver returns that attempt's events with a
    nil error; between its start and its return the trace holds exactly
    [m + 1] fetches and exactly [m] pauses, each of the fixed delay.  An
    empty result with a nil error is not satisfactory, so it is among the
    attempts that are retried. *)
Theorem retry_returns_first_satisfactory (m : nat) (w w1 w2 : World)
        (r : list KeptnContextExtendedCE * option Error) :
  Z.of_nat m < maxRetries ->
  failing fuel ctx e filter d m w w1 ->
  V2.GetEventsWithContext fuel ctx e filter w1 = Some (Ret r, w2) ->
  V2.satisfactory r = true ->
  V2.GetEventsWithRetryWithContext fuel ctx e filter maxRetries d w
  = Some (Ret (fst r, None), w2)
  /\ (exists t, trace w2 = trace w ++ t
                /\ fetchCount t = S m /\ sleepsOf t = repeat d m)
  /\ V2.satisfactory ([], None) = false.
Proof.
  intros M F G Sat. split; [|split; [|reflexivity]].
  - unfold V2.GetEventsWithRetryWithContext.
    replace (Z.to_nat maxRetries) with (m + S (Z.to_nat maxRetries - S m))%nat by lia.
    rewrite (retryLoop_failing m w w1 F). simpl. now rewrite G, Sat.
  - apply failing_trace in F as (t & T & C & Sl).
    apply GetEventsWithContext_trace in G as (t1 & T1 & R1).
    apply onlyRequests_counts in R1 as [C1 S1].
    exists (t ++ EvFetch :: t1). split; [|split].
    + rewrite T1, T, <- app_assoc. reflexivity.
    + rewrite fetchCount_app, C.
      change (fetchCount (EvFetch :: t1)) with (S (fetchCount t1)). lia.
    + rewrite sleepsOf_app, Sl.
      change (sleepsOf (EvFetch :: t1)) with (sleepsOf t1).
      rewrite S1. apply app_nil_r.
Qed.

(** C6.  When none of the [maxRetries] attempts is satisfactory, the driver
    makes exactly [maxRetries] fetches (none when [maxRetries] is not
    positive) and returns no events and the error "could not find matching
    event after <maxRetries> x <delay>", which names the attempt count and
    the delay; the error is not nil. *)
Theorem retry_exhaustion (w w1 : World) :
  failing fuel ctx e filter d (Z.to_nat maxRetries) w w1 ->
  V2.GetEventsWithRetryWithContext fuel ctx e filter maxRetries d w
  = Some (Ret ([], Some (V2.notFound maxRetries d)), w1)
  /\ (exists t, trace w1 = trace w ++ t /\ fetchCount t = Z.to_nat maxRetries)
  /\ V2.notFound maxRetries d
     = "could not find matching event after " +:+ itoa maxRetries +:+ " x "
         +:+ Duration_String d
  /\ Contains (itoa maxRetries) (V2.notFound maxRetries d)
  /\ Contains (Duration_String d) (V2.notFound maxRetries d).
Proof.
  intros F. split; [|split; [|split; [reflexivity|apply notFound_names]]].
  - unfold V2.GetEventsWithRetryWithContext.
    replace (Z.to_nat maxRetries) with (Z.to_nat maxRetries + 0)%nat at 1 by lia.
    rewrite (retryLoop_failing _ w w1 F). reflexivity.
  - apply failing_trace in F as (t & T & C & _). now exists t.
Qed.

End RetryFacts.

(** ** The project listing and the legacy package *)

Section ProjectsFacts.

Context {X : Externals}.

Variables (p : Api.ProjectHandler) (u : URL).
Hypothesis request_ok : forall method url, NewRequest_error method url = None.
Hypothesis url_ok :
  url_Parse (Api.Scheme p +:+ "://" +:+ Api.BaseURL p +:+ Api.v1ProjectPath) = inr u.

Lemma projectsRequest_line (key : string) :
  Method (projectsRequest p u key) = "GET"
  /\ RequestURI (projectsRequest p u key) = Api.pageURL u key.
Proof.
  unfold projectsRequest, Api.addAuthHeader. destruct (_ && _); split; reflexivity.
Qed.

Lemma projects_turn (fuel : nat) (acc : list Project) (key : string) (w : World)
      (resp : Response) (body : bytes) (n1 : Net) (page : Projects Project) :
  Api.HTTPClient p (projectsRequest p u key) (net w) = (inr resp, n1) ->
  StatusCode resp = 200 ->
  Body resp = inr body ->
  Projects_FromJSON body = inr page ->
  Api.GetAllProjects_loop (S fuel) p acc key w
  = let w' := {| net := n1; trace := trace w ++ [EvRequest "GET" (Api.pageURL u key)] |} in
    if String.eqb (Projects_NextPageKey page) "" || String.eqb (Projects_NextPageKey page) "0"
    then Some (Ret (acc ++ Projects_Projects page, None), w')
    else Api.GetAllProjects_loop fuel p (acc ++ Projects_Projects page)
           (Projects_NextPageKey page) w'.
Proof using request_ok url_ok.
  intros A C B D. simpl. rewrite url_ok. unfold NewRequest. rewrite request_ok.
  unfold Do. fold (projectsRequest p u key).
  destruct (projectsRequest_line key) as [-> ->].
  rewrite A, B, C. simpl. rewrite D. reflexivity.
Qed.

(** The listing of projects has no page limit: it concatenates the pages
    it is served up to the first that declares "" or "0", with one request
    for each. *)
Lemma GetAllProjects_concatenates (init : list (Projects Project))
      (final : Projects Project) :
  forall (key : string) (w : World) (n2 : Net) (acc : list Project) (fuel : nat),
    servedProjects p u key (net w) (init ++ [final]) n2 ->
    Forall (fun q => ~ sentinel (Projects_NextPageKey q)) init ->
    sentinel (Projects_NextPageKey final) ->
    (length init < fuel)%nat ->
    Api.GetAllProjects_loop fuel p acc key w
    = Some (Ret (acc ++ allProjects (init ++ [final]), None),
            {| net := n2; trace := trace w ++ projectRequests u key (init ++ [final]) |}).
Proof using request_ok url_ok.
  induction init as [|page rest IH]; intros key w n2 acc fuel S F L Fu.
  - destruct fuel as [|fuel]; [simpl in Fu; lia|].
    inversion S as [|? ? resp body n1 ? ? ? A C B D S']; subst.
    inversion S'; subst.
    rewrite (projects_turn fuel acc key w resp body n2 final A C B D). simpl.
    apply sentinel_eqb in L. rewrite L.
    unfold allProjects. simpl. now rewrite app_nil_r.
  - destruct fuel as [|fuel]; [simpl in Fu; lia|].
    simpl in S. inversion S as [|? ? resp body n1 ? ? ? A C B D S']; subst.
    inversion F as [|? ? Fp Fr]; subst.
    rewrite (projects_turn fuel acc key w resp body n1 page A C B D). simpl.
    assert (N : String.eqb (Projects_NextPageKey page) ""
                || String.eqb (Projects_NextPageKey page) "0" = false).
    { apply not_true_iff_false. intros T. now apply sentinel_eqb in T. }
    rewrite N.
    rewrite (IH (Projects_NextPageKey page) _ n2 (acc ++ Projects_Projects page) fuel);
      try assumption; [|simpl in Fu; lia].
    unfold allProjects. simpl. rewrite <- !app_assoc. reflexivity.
Qed.

End ProjectsFacts.

Section LegacyFacts.

Context {X : Externals} {LC : LegacyCodec}.

Variables (c : APIService) (uri : string) (w : World) (resp : Response) (n' : Net).
Hypothesis request_ok : forall method url, NewRequest_error method url = None.
Hypothesis answered : forall req, getHTTPClient c req (net w) = (inr resp, n').

Lemma legacy_send (method : string) (data : option bytes) :
  Legacy.send method uri data c w = (Ret (inr resp), afterRequest w n' method uri).
Proof using request_ok answered.
  unfold Legacy.send, NewRequest. rewrite request_ok. unfold Do. rewrite answered.
  unfold afterRequest. repeat f_equal;
    unfold Legacy.addAuthHeader; destruct (_ && _); reflexivity.
Qed.

(** The legacy [post] has no error mapper: outside [200,300) a body that
    does not unmarshal gives the unmarshal error itself, and a body that
    does is handed back as it was decoded, message or not. *)
Lemma legacy_post_decode_error (data body : bytes) (err : string) :
  ~ 200 <= StatusCode resp < 300 ->
  Body resp = inr body ->
  Unmarshal_Error body = inl err ->
  fst (Legacy.post uri data c w) = Ret (None, Some err).
Proof using request_ok answered.
  intros B R U. unfold Legacy.post. rewrite legacy_send.
  destruct (Z.leb_spec 200 (StatusCode resp)); destruct (Z.ltb_spec (StatusCode resp) 300);
    simpl; try lia; now rewrite R, U.
Qed.

(** The legacy [get] returns neither a project nor an error on every
    status in [200,300): the body of a success is not read. *)
Lemma legacy_get_success :
  200 <= StatusCode resp < 300 ->
  fst (Legacy.get uri c w) = Ret (None, None).
Proof using request_ok answered.
  intros B. unfold Legacy.get. rewrite legacy_send.
  destruct (Z.leb_spec 200 (StatusCode resp)); destruct (Z.ltb_spec (StatusCode resp) 300);
    simpl; try lia; reflexivity.
Qed.

End LegacyFacts.

(** * The properties on a concrete backend *)

Section Concrete.

Import Sample.

Abbreviation handler := (eventHandler "x-token" "secret").

Lemma handleErrStatusCode_missing_message_witness :
  @Error_FromJSON env (b "{}") = inr {| Message := None |}
  /\ @Api.handleErrStatusCode env 500 (b "{}") = Panic nilDeref.
Proof.
  split; [reflexivity|].
  apply (@handleErrStatusCode_missing_message env 500 (b "{}")). reflexivity.
Defined.

(** On a body that is not JSON the mapper gives the generic error. *)
Lemma handleErrStatusCode_not_json :
  @Api.handleErrStatusCode env 500 (b "not json") = Ret "error with status code 500".
Proof. reflexivity. Qed.

(** The panic of the mapper is the panic of the operation. *)
Lemma post_missing_message_panics :
  fst (@Api.post env "http://api.example/v1/event" (b "{}")
         (api "x-token" "secret" (constantClient 500 "500 Internal Server Error" "{}"))
         world0)
  = Panic nilDeref.
Proof. reflexivity. Qed.



(** C3, refuted as stated: the backend serves three pages, each under the
    cursor the page before declares, and only the last declares "0"; with
    the page limit 1 the driver returns the first page alone after one
    request. *)
Lemma page_limit_cuts_pagination :
  @served env (executor (pagedBackend "<events 1>")) false handler eventsURL
    "" 0%nat [page1; page2; page3] 3%nat
  /\ ~ sentinel (Events_NextPageKey page1)
  /\ ~ sentinel (Events_NextPageKey page2)
  /\ sentinel (Events_NextPageKey page3)
  /\ @V2.getEventsWithContext env (executor (pagedBackend "<events 1>")) 10 false
       handler eventsURI 1 world0
     = Some ((["e1"; "e2"], None),
             (world 1
                [EvRequest "GET" "http://api.example/events"]))
  /\ @allEvents env [page1; page2; page3] = ["e1"; "e2"; "e3"; "e4"].
Proof.
  split.
  { repeat (eapply (@served_cons env);
            [reflexivity | reflexivity |]).
    apply (@served_nil env). }
  unfold sentinel. simpl.
  repeat split; try (intros [H|H]; discriminate); try (now right);
    reflexivity.
Qed.

Lemma pagination_concatenates_witness :
  @V2.getEventsWithContext env (executor (pagedBackend "<events 1>")) 10 false
    handler eventsURI 0 world0
  = Some ((["e1"; "e2"; "e3"; "e4"], None),
          (world 3
                [EvRequest "GET" "http://api.example/events";
                       EvRequest "GET" "http://api.example/events?nextPageKey=1";
                       EvRequest "GET" "http://api.example/events?nextPageKey=2"]))
  /\ @requestCount env (requests eventsURL "" [page1; page2; page3]) = 3%nat.
Proof.
  apply (@pagination_concatenates env (executor (pagedBackend "<events 1>")) false
           handler eventsURI eventsURL eq_refl 0 [page1; page2] page3 world0 3%nat 10%nat).
  - repeat (eapply (@served_cons env);
            [reflexivity | reflexivity |]).
    apply (@served_nil env).
  - repeat constructor; intros [H|H]; discriminate.
  - now right.
  - left. lia.
  - simpl. lia.
Defined.

Lemma page_limit_stops_witness :
  @V2.getEventsWithContext env (executor (pagedBackend "<events x>")) 10 false
    handler eventsURI 2 world0
  = Some ((["e5"; "e3"], None),
          (world 2
                [EvRequest "GET" "http://api.example/events";
                       EvRequest "GET" "http://api.example/events?nextPageKey=next"]))
  /\ @requestCount env (requests eventsURL "" [pageX; page2]) = 2%nat.
Proof.
  apply (@page_limit_stops env (executor (pagedBackend "<events x>")) false
           handler eventsURI eventsURL eq_refl 2 [pageX] page2 world0 2%nat 10%nat).
  - lia.
  - repeat (eapply (@served_cons env);
            [reflexivity | reflexivity |]).
    apply (@served_nil env).
  - constructor; [|constructor].
    split; [intros [H|H]; discriminate|].
    right. exists "invalid syntax". reflexivity.
  - intros [H|H]; discriminate.
  - vm_compute. discriminate.
  - simpl. lia.
Defined.

Lemma retry_returns_first_satisfactory_witness :
  exists w1 w2,
    @failing env (executor (eventuallyThere 2)) 10 false handler (noFilter 0) 5 2 world0 w1
    /\ @V2.GetEventsWithContext env (executor (eventuallyThere 2)) 10 false handler
         (noFilter 0) w1 = Some (Ret (["e4"], None), w2)
    /\ @V2.GetEventsWithRetryWithContext env (executor (eventuallyThere 2)) 10 false
         handler (noFilter 0) 3 5 world0 = Some (Ret (["e4"], None), w2)
    /\ exists t, trace w2 = trace world0 ++ t
                 /\ @fetchCount env t = 3%nat /\ @sleepsOf env t = [5; 5].
Proof.
  assert (F : exists w1,
             @failing env (executor (eventuallyThere 2)) 10 false handler (noFilter 0)
               5 2 world0 w1
             /\ exists w2,
                 @V2.GetEventsWithContext env (executor (eventuallyThere 2)) 10 false
                   handler (noFilter 0) w1 = Some (Ret (["e4"], None), w2)).
  { eexists. split.
    - repeat (eapply (@failing_S env); [reflexivity | reflexivity |]).
      apply (@failing_O env).
    - eexists. reflexivity. }
  destruct F as (w1 & F & w2 & G).
  exists w1, w2. split; [exact F|]. split; [exact G|].
  destruct (@retry_returns_first_satisfactory env (executor (eventuallyThere 2)) false
              handler 10%nat (noFilter 0) 3 5 2%nat world0 w1 w2 (["e4"], None)
              ltac:(lia) F G eq_refl) as (R & T & _).
  split; [exact R|exact T].
Defined.

Lemma retry_exhaustion_witness :
  exists w1,
    @failing env (executor (eventuallyThere 5)) 10 false handler (noFilter 0) 5 2 world0 w1
    /\ @V2.GetEventsWithRetryWithContext env (executor (eventuallyThere 5)) 10 false
         handler (noFilter 0) 2 5 world0
       = Some (Ret ([], Some "could not find matching event after 2 x 5ns"), w1)
    /\ exists t, trace w1 = trace world0 ++ t /\ @fetchCount env t = 2%nat.
Proof.
  assert (F : exists w1,
             @failing env (executor (eventuallyThere 5)) 10 false handler (noFilter 0)
               5 (Z.to_nat 2) world0 w1).
  { eexists.
    repeat (eapply (@failing_S env); [reflexivity | reflexivity |]).
    apply (@failing_O env). }
  destruct F as (w1 & F).
  exists w1. split; [exact F|].
  destruct (@retry_exhaustion env (executor (eventuallyThere 5)) false handler 10%nat
              (noFilter 0) 2 5 world0 w1 F) as (R & T & _).
  split; [exact R|exact T].
Defined.



(** C9.  A context that has been cancelled makes every attempt fail with
    the cancellation error; the driver treats each of them as one more
    unsatisfactory attempt: it pauses for the full delay after each, uses up
    its attempts, and returns the error of exhaustion, not a cancellation
    error. *)
Theorem cancelled_attempts_are_retried :
  fst <$> @V2.GetEventsWithContext env (executor (eventuallyThere 0)) 10 true handler
            (noFilter 0) world0
  = Some (Ret ([], Some {| Message := Some "context canceled" |}))
  /\ @V2.GetEventsWithRetryWithContext env (executor (eventuallyThere 0)) 10 true handler
       (noFilter 0) 2 5 world0
     = Some (Ret ([], Some "could not find matching event after 2 x 5ns"),
             world 2
               [EvFetch;
                EvRequest "GET" "http://api.example/mongodb-datastore/event?project=sockshop";
                @EvSleep env 5;
                EvFetch;
                EvRequest "GET" "http://api.example/mongodb-datastore/event?project=sockshop";
                @EvSleep env 5]).
Proof. split; reflexivity. Qed.

End Concrete.

(** * Further properties *)

(** ** The single-shot operations beyond the status bands *)

Section Exchange.

Context {X : Externals}.

Variables (api : APIService) (uri : string) (w : World).

Lemma roundTrip_not_built (method : string) (data : option bytes) (err : string) :
  NewRequest_error method uri = Some err ->
  Api.roundTrip method uri data api w = (inl err, w).
Proof.
  intros H. unfold Api.roundTrip, Api.buildRequest, NewRequest. now rewrite H.
Qed.

Lemma built_request_line (method : string) (data : option bytes) (req : Request) :
  Api.buildRequest method uri data api = inr req ->
  Method req = method /\ RequestURI req = uri /\ ReqBody req = data.
Proof.
  unfold Api.buildRequest, NewRequest.
  destruct (NewRequest_error method uri); [discriminate|].
  intros H. inversion H; subst. unfold Api.addAuthHeader.
  destruct (_ && _); repeat split; reflexivity.
Qed.

(** Once the request is built, the world after the round trip is the world
    after one request, whatever the client answers. *)
Lemma roundTrip_world (method : string) (data : option bytes) :
  NewRequest_error method uri = None ->
  exists n', snd (Api.roundTrip method uri data api w) = afterRequest w n' method uri.
Proof.
  intros H. unfold Api.roundTrip.
  destruct (Api.buildRequest method uri data api) as [err|req] eqn:B.
  { unfold Api.buildRequest, NewRequest in B. rewrite H in B. discriminate. }
  destruct (built_request_line method data req B) as (M & U & _).
  unfold Do. destruct (getHTTPClient api req (net w)) as [[err|resp] n'] eqn:C;
    rewrite M, U; [|destruct (Body resp)]; now exists n'.
Qed.

Lemma roundTrip_fails (method : string) (data : option bytes) (err : string) (n' : Net) :
  NewRequest_error method uri = None ->
  exchangeFails (getHTTPClient api) (net w) n' err ->
  Api.roundTrip method uri data api w = (inl err, afterRequest w n' method uri).
Proof.
  intros H F. unfold Api.roundTrip.
  destruct (Api.buildRequest method uri data api) as [e|req] eqn:B.
  { unfold Api.buildRequest, NewRequest in B. rewrite H in B. discriminate. }
  destruct (built_request_line method data req B) as (M & U & _).
  unfold Do. destruct F as [F|(resp & R & F)]; rewrite F, M, U; [|rewrite R]; reflexivity.
Qed.

Lemma roundTrip_reply (method : string) (data : option bytes)
      (resp : Response) (b : bytes) (n' : Net) :
  NewRequest_error method uri = None ->
  (forall req, getHTTPClient api req (net w) = (inr resp, n')) ->
  Body resp = inr b ->
  Api.roundTrip method uri data api w = (inr (replyOf resp b), afterRequest w n' method uri).
Proof.
  intros H A R. unfold Api.roundTrip.
  destruct (Api.buildRequest method uri data api) as [e|req] eqn:B.
  { unfold Api.buildRequest, NewRequest in B. rewrite H in B. discriminate. }
  destruct (built_request_line method data req B) as (M & U & _).
  unfold Do. rewrite A, R, M, U. reflexivity.
Qed.

Ltac unfold_ops :=
  unfold Api.post, Api.put, Api.postWithEventContext, Api.putWithEventContext,
    Api.delete, Api.deleteWithEventContext, Api.getProject.



Lemma op_world :
  forall data,
    snd (Api.post uri data api w) = snd (Api.roundTrip "POST" uri (Some data) api w)
    /\ snd (Api.put uri data api w) = snd (Api.roundTrip "PUT" uri (Some data) api w)
    /\ snd (Api.postWithEventContext uri data api w)
       = snd (Api.roundTrip "POST" uri (Some data) api w)
    /\ snd (Api.putWithEventContext uri data api w)
       = snd (Api.roundTrip "PUT" uri (Some data) api w)
    /\ snd (Api.delete uri api w) = snd (Api.roundTrip "DELETE" uri None api w)
    /\ snd (Api.deleteWithEventContext uri api w)
       = snd (Api.roundTrip "DELETE" uri None api w)
    /\ snd (Api.getProject uri api w) = snd (Api.roundTrip "GET" uri None api w).
Proof.
  intros data. unfold_ops.
  repeat split;
    match goal with
    | |- context [Api.roundTrip ?m uri ?d api w] =>
        destruct (Api.roundTrip m uri d api w) as [[err|r] w']; simpl; [reflexivity|]
    end;
    repeat match goal with
      | |- context [if ?c then _ else _] => destruct c
      | |- context [match ?c with inl _ => _ | inr _ => _ end] => destruct c
      end; reflexivity.
Qed.

Lemma op_traces (data : bytes) :
  (forall method, NewRequest_error method uri = None) ->
  trace (snd (Api.post uri data api w)) = trace w ++ [EvRequest "POST" uri]
  /\ trace (snd (Api.put uri data api w)) = trace w ++ [EvRequest "PUT" uri]
  /\ trace (snd (Api.postWithEventContext uri data api w))
     = trace w ++ [EvRequest "POST" uri]
  /\ trace (snd (Api.putWithEventContext uri data api w))
     = trace w ++ [EvRequest "PUT" uri]
  /\ trace (snd (Api.delete uri api w)) = trace w ++ [EvRequest "DELETE" uri]
  /\ trace (snd (Api.deleteWithEventContext uri api w))
     = trace w ++ [EvRequest "DELETE" uri]
  /\ trace (snd (Api.getProject uri api w)) = trace w ++ [EvRequest "GET" uri].
Proof.
  intros H.
  destruct (op_world data) as (W1 & W2 & W3 & W4 & W5 & W6 & W7).
  rewrite W1, W2, W3, W4, W5, W6, W7.
  destruct (roundTrip_world "POST" (Some data) (H "POST")) as [n1 ->].
  destruct (roundTrip_world "PUT" (Some data) (H "PUT")) as [n2 ->].
  destruct (roundTrip_world "DELETE" None (H "DELETE")) as [n3 ->].
  destruct (roundTrip_world "GET" None (H "GET")) as [n4 ->].
  repeat split; reflexivity.
Qed.


Variables (resp : Response) (b : bytes) (n' : Net).
Hypothesis request_ok : forall method, NewRequest_error method uri = None.
Hypothesis answered : forall req, getHTTPClient api req (net w) = (inr resp, n').
Hypothesis read_ok : Body resp = inr b.

Ltac run_ops :=
  unfold_ops;
  rewrite !(fun m d => roundTrip_reply m d resp b n' (request_ok m) answered read_ok);
  simpl.




End Exchange.

(** ** The generic message of the error mapper *)

Section GenericMessage.

Context {X : Externals}.

Lemma Sprintf_d_cons (c : ascii) (rest : string) (n : Z) :
  Ascii.eqb c "%" = false ->
  Sprintf_d (String c rest) n = String c (Sprintf_d rest n).
Proof. intros C. destruct rest; simpl; [reflexivity|]. now rewrite C. Qed.

Lemma Sprintf_d_subst (pre post : string) (n : Z) :
  noPercent pre = true ->
  Sprintf_d (pre +:+ "%d" +:+ post) n = pre +:+ itoa n +:+ post.
Proof.
  induction pre as [|c pre IH]; intros NP; [reflexivity|].
  simpl in NP. apply andb_true_iff in NP as [C NP].
  apply negb_true_iff in C.
  rewrite (string_app_cons c pre), (string_app_cons c pre).
  rewrite (Sprintf_d_cons c _ n C). now rewrite (IH NP).
Qed.


End GenericMessage.

(** ** Pagination beyond the happy path *)

Section PaginationMore.

Context {X : Externals} {E2 : ExecutorV2}.

Variables (ctx : Context) (e : V2.EventHandler) (uri : string) (u : URL).
Hypothesis uri_ok : url_Parse uri = inr u.

Lemma requests_app (key : string) (xs ys : list (Events KeptnContextExtendedCE)) :
  requests u key (xs ++ ys) = requests u key xs ++ requests u (cursorAfter key xs) ys.
Proof.
  revert key. induction xs as [|x xs IH]; intros key; simpl; [reflexivity|].
  now rewrite IH.
Qed.

(** The loop works through pages on which it does not stop. *)
Lemma loop_prefix (k : Z) (init : list (Events KeptnContextExtendedCE)) :
  forall (key : string) (w : World) (n1 : Net) (acc : list KeptnContextExtendedCE)
         (fuel : nat),
    served ctx e u key (net w) init n1 ->
    Forall (fun q => V2.lastPage k q = false) init ->
    V2.getEventsWithContext_loop (length init + fuel) ctx e uri k acc key w
    = V2.getEventsWithContext_loop fuel ctx e uri k (acc ++ allEvents init)
        (cursorAfter key init)
        {| net := n1; trace := trace w ++ requests u key init |}.
Proof using uri_ok.
  induction init as [|page rest IH]; intros key w n1 acc fuel Sv F.
  - inversion Sv; subst. simpl. unfold allEvents. simpl.
    rewrite !app_nil_r. now destruct w.
  - inversion Sv as [|? ? body n0 ? ? ? G D S']; subst.
    inversion F as [|? ? Fp Fr]; subst.
    change (length (page :: rest) + fuel)%nat with (S (length rest + fuel)).
    rewrite (loop_turn ctx e uri u uri_ok _ k acc key w body n0 page G D).
    cbv zeta. rewrite Fp.
    rewrite (IH (Events_NextPageKey page)
               {| net := n0; trace := trace w ++ [EvRequest "GET" (Api.pageURL u key)] |}
               n1 (acc ++ Events_Events page) fuel S' Fr).
    simpl. unfold allEvents. simpl. rewrite <- !app_assoc. reflexivity.
Qed.

(** X8.  A failure in the middle of a listing discards what was read: when
    the pages read so far did not end the loop and the next request fails,
    in the executor or in the decoder, the driver returns no events and that
    error, after one request for each page read and the one that failed. *)
Theorem pagination_failure_discards_pages (k : Z)
        (init : list (Events KeptnContextExtendedCE)) (w : World) (n1 n2 : Net)
        (body : bytes) (failure : Error) (fuel : nat) :
  served ctx e u "" (net w) init n1 ->
  Forall (fun q => V2.lastPage k q = false) init ->
  (exists mErr,
      getAndExpectOK ctx (Api.pageURL u (cursorAfter "" init)) (V2.EventHandler_api e) n1
      = ((body, Some mErr), n2) /\ failure = mErr)
  \/ (exists err,
         getAndExpectOK ctx (Api.pageURL u (cursorAfter "" init)) (V2.EventHandler_api e) n1
         = ((body, None), n2)
         /\ Events_FromJSON body = inl err /\ failure = Api.buildErrorResponse err) ->
  (length init < fuel)%nat ->
  V2.getEventsWithContext fuel ctx e uri k w
  = Some (([], Some failure),
          {| net := n2;
             trace := trace w ++ requests u "" init
                        ++ [EvRequest "GET" (Api.pageURL u (cursorAfter "" init))] |}).
Proof using uri_ok.
  intros Sv F Fail Fu. unfold V2.getEventsWithContext.
  replace fuel with (length init + S (fuel - S (length init)))%nat by lia.
  rewrite (loop_prefix k init "" w n1 [] _ Sv F). simpl. rewrite uri_ok.
  unfold V2.callGetAndExpectOK. simpl.
  destruct Fail as [(mErr & G & ->)|(err & G & D & ->)]; rewrite G; [|rewrite D];
    now rewrite <- app_assoc.
Qed.

(** X9.  Against a backend that answers every request with a page on which
    the loop does not stop (no "" or "0", and no page limit reached), the
    driver does not return: it has no result for any amount of fuel. *)
Theorem endless_cursors_never_return (k : Z) :
  (forall key n, exists body n' page,
      getAndExpectOK ctx (Api.pageURL u key) (V2.EventHandler_api e) n = ((body, None), n')
      /\ Events_FromJSON body = inr page
      /\ V2.lastPage k page = false) ->
  forall fuel w, V2.getEventsWithContext fuel ctx e uri k w = None.
Proof using uri_ok.
  intros H fuel w. unfold V2.getEventsWithContext.
  generalize (@nil KeptnContextExtendedCE) as acc. generalize "" as key. revert w.
  induction fuel as [|fuel IH]; intros w key acc; [reflexivity|].
  destruct (H key (net w)) as (body & n' & page & G & D & L).
  rewrite (loop_turn ctx e uri u uri_ok fuel k acc key w body n' page G D).
  cbv zeta. rewrite L. apply IH.
Qed.

End PaginationMore.

Section PageURL.

Context {X : Externals}.

(** X10.  The first request of a listing goes to the URL as it is; every
    later one carries the cursor under [nextPageKey] and keeps every other
    query parameter of the URL, so that a filter holds for all pages. *)
Theorem follow_up_request_keeps_the_query (u : URL) (key : string) :
  Api.pageURL u "" = url_String u
  /\ (key <> "" ->
      exists q,
        Api.pageURL u key = url_String (url_withRawQuery u (Values_Encode q))
        /\ q !! "nextPageKey" = Some [key]
        /\ forall other, other <> "nextPageKey" -> q !! other = url_Query u !! other).
Proof.
  split; [reflexivity|]. intros NE.
  exists (Values_Set (url_Query u) "nextPageKey" key).
  unfold Api.pageURL. apply nonEmpty_true in NE. rewrite NE.
  unfold Values_Set. split; [reflexivity|]. split.
  - apply lookup_insert_eq.
  - intros other O. now apply lookup_insert_ne.
Qed.

Lemma setIfNonEmpty_lookup (k v : string) (q : gmap string (list string)) (key : string) :
  V2.setIfNonEmpty k v q !! key
  = if String.eqb key k then (if nonEmpty v then Some [v] else q !! key) else q !! key.
Proof.
  unfold V2.setIfNonEmpty, Values_Set.
  destruct (String.eqb_spec key k) as [->|NE].
  - destruct (nonEmpty v); [apply lookup_insert_eq|reflexivity].
  - destruct (nonEmpty v); [|reflexivity]. apply lookup_insert_ne. congruence.
Qed.

(** X11.  The query of an event search holds exactly the filter fields that
    are not empty: under each of the eight keys the filter fills
    ([project], [stage], [service], [keptnContext], [eventID], [type],
    [pageSize], [fromTime]) the query has the field's value when the field
    is not empty and what the URL had before otherwise; no other key is
    touched, and [NumberOfPages] never enters the query. *)
Theorem filterQuery_lookup (filter : V2.EventFilter) (q : gmap string (list string))
        (key : string) :
  V2.filterQuery filter q !! key
  = match filterValue filter key with
    | Some v => if nonEmpty v then Some [v] else q !! key
    | None => q !! key
    end.
Proof.
  unfold V2.filterQuery, filterValue. rewrite !setIfNonEmpty_lookup.
  repeat match goal with
    | |- context [String.eqb key ?k] => destruct (String.eqb_spec key k); subst
    end;
    simpl;
    repeat match goal with
      | |- context [nonEmpty ?v] => destruct (nonEmpty v)
      end; reflexivity.
Qed.

(** The query of X11 is the one the search is made with. *)
Lemma GetEventsWithContext_query {E2 : ExecutorV2} (fuel : nat) (ctx : Context)
      (e : V2.EventHandler) (filter : V2.EventFilter) (w : World) (u : URL) :
  url_Parse (V2.Scheme e +:+ "://" +:+ V2.BaseURL e +:+ "/event?") = inr u ->
  V2.GetEventsWithContext fuel ctx e filter w
  = match V2.getEventsWithContext fuel ctx e
            (url_String (url_withRawQuery u
                           (Values_Encode (V2.filterQuery filter (url_Query u)))))
            (V2.NumberOfPages filter) (emit EvFetch w) with
    | None => None
    | Some (r, w') => Some (Ret r, w')
    end.
Proof. intros P. unfold V2.GetEventsWithContext. now rewrite P. Qed.

End PageURL.

(** ** The retry driver beyond the two outcomes *)

Section RetryMore.

Context {X : Externals} {E2 : ExecutorV2}.

Variables (ctx : Context) (e : V2.EventHandler) (fuel : nat) (filter : V2.EventFilter).
Variables (maxRetries : Z) (d : Duration).

(** X12.  Without a positive number of retries the driver does nothing: it
    makes no fetch and no pause and returns the error of exhaustion at
    once, in the world it was given. *)
Theorem retry_without_attempts (w : World) :
  maxRetries <= 0 ->
  V2.GetEventsWithRetryWithContext fuel ctx e filter maxRetries d w
  = Some (Ret ([], Some (V2.notFound maxRetries d)), w).
Proof.
  intros H. unfold V2.GetEventsWithRetryWithContext.
  replace (Z.to_nat maxRetries) with O by lia. reflexivity.
Qed.

Lemma retryLoop_shape (turns : nat) :
  forall w events err w',
    V2.retryLoop turns fuel ctx e filter maxRetries d w = Some (Ret (events, err), w') ->
    (err = None /\ events <> [])
    \/ (err = Some (V2.notFound maxRetries d) /\ events = []).
Proof.
  induction turns as [|turns IH]; intros w events err w' H; simpl in H.
  - inversion H; subst. now right.
  - destruct (V2.GetEventsWithContext fuel ctx e filter w) as [[[r| |] w1]|];
      try discriminate.
    destruct (V2.satisfactory r) eqn:Sat; [|now apply IH in H].
    inversion H; subst. left. split; [reflexivity|].
    unfold V2.satisfactory in Sat. destruct r as [evs [m|]]; simpl in *; [discriminate|].
    intros ->. discriminate.
Qed.

(** X13.  What the driver returns has one of two shapes: events, at least
    one, with a nil error; or no events with the error of exhaustion.  It
    never returns an empty success, and it never hands on the error of an
    attempt. *)
Theorem retry_result_shape (w w' : World) (events : list KeptnContextExtendedCE)
        (err : option string) :
  V2.GetEventsWithRetryWithContext fuel ctx e filter maxRetries d w
  = Some (Ret (events, err), w') ->
  (err = None /\ events <> [])
  \/ (err = Some (V2.notFound maxRetries d) /\ events = []).
Proof. apply retryLoop_shape. Qed.

(** X14.  The driver pauses after every unsatisfactory attempt, the last
    one included: when all [maxRetries] attempts fail it has paused
    [maxRetries] times, each for the fixed delay, and with a positive
    [maxRetries] the last thing it did before returning the error was to
    pause. *)
Theorem exhaustion_pauses_after_the_last_attempt (w w1 : World) :
  failing fuel ctx e filter d (Z.to_nat maxRetries) w w1 ->
  V2.GetEventsWithRetryWithContext fuel ctx e filter maxRetries d w
  = Some (Ret ([], Some (V2.notFound maxRetries d)), w1)
  /\ (exists t, trace w1 = trace w ++ t
                /\ sleepsOf t = repeat d (Z.to_nat maxRetries))
  /\ (0 < maxRetries -> exists t, trace w1 = t ++ [EvSleep d]).
Proof.
  intros F. split; [|split].
  - unfold V2.GetEventsWithRetryWithContext.
    replace (Z.to_nat maxRetries) with (Z.to_nat maxRetries + 0)%nat at 1 by lia.
    rewrite (retryLoop_failing ctx e fuel filter maxRetries d _ w w1 F). reflexivity.
  - apply failing_trace in F as (t & T & _ & Sl). now exists t.
  - intros P. remember (Z.to_nat maxRetries) as m eqn:M.
    assert (m <> O) as NZ by lia. clear M P.
    induction F as [w|m w r w1 w2 G U F IH]; [contradiction|].
    destruct m as [|m].
    + inversion F; subst. exists (trace w1). reflexivity.
    + apply IH. discriminate.
Qed.

(** X15.  An event URL that does not parse ends the process: the fetch
    stops in [log.Fatal] before any request, and the retry driver, given at
    least one attempt, stops there too, without a pause and without the
    error of exhaustion. *)
Theorem unparsable_event_url_is_fatal (w : World) (err : string) :
  url_Parse (V2.Scheme e +:+ "://" +:+ V2.BaseURL e +:+ "/event?") = inl err ->
  V2.GetEventsWithContext fuel ctx e filter w
  = Some (Fatal "error parsing url", emit EvFetch w)
  /\ (0 < maxRetries ->
      V2.GetEventsWithRetryWithContext fuel ctx e filter maxRetries d w
      = Some (Fatal "error parsing url", emit EvFetch w)).
Proof.
  intros P.
  assert (G : V2.GetEventsWithContext fuel ctx e filter w
              = Some (Fatal "error parsing url", emit EvFetch w)).
  { unfold V2.GetEventsWithContext. now rewrite P. }
  split; [exact G|]. intros M.
  unfold V2.GetEventsWithRetryWithContext.
  destruct (Z.to_nat maxRetries) as [|turns] eqn:T; [lia|].
  simpl. now rewrite G.
Qed.

End RetryMore.

(** ** The handlers' constructors *)

Section StringFacts.

Lemma stripPrefix_app (prefix s : string) :
  GoStrings.stripPrefix prefix (prefix +:+ s) = Some s.
Proof.
  induction prefix as [|c prefix IH]; [now destruct s|].
  rewrite string_app_cons. simpl. now rewrite Ascii.eqb_refl.
Qed.

Lemma TrimPrefix_app (prefix s : string) :
  GoStrings.TrimPrefix (prefix +:+ s) prefix = s.
Proof. unfold GoStrings.TrimPrefix. now rewrite stripPrefix_app. Qed.

Lemma TrimPrefix_without (s prefix : string) :
  GoStrings.HasPrefix s prefix = false -> GoStrings.TrimPrefix s prefix = s.
Proof.
  unfold GoStrings.HasPrefix, GoStrings.TrimPrefix.
  now destruct (GoStrings.stripPrefix prefix s).
Qed.

Lemma HasSuffix_unfold (c : ascii) (t suffix : string) :
  GoStrings.HasSuffix (String c t) suffix
  = String.eqb (String c t) suffix || GoStrings.HasSuffix t suffix.
Proof. reflexivity. Qed.

Lemma HasSuffix_refl (s : string) : GoStrings.HasSuffix s s = true.
Proof.
  destruct s as [|c s]; [reflexivity|].
  rewrite HasSuffix_unfold. now rewrite String.eqb_refl.
Qed.

Lemma HasSuffix_app (x suffix : string) : GoStrings.HasSuffix (x +:+ suffix) suffix = true.
Proof.
  induction x as [|c x IH]; [apply HasSuffix_refl|].
  rewrite string_app_cons, HasSuffix_unfold. rewrite IH. apply orb_true_r.
Qed.

Lemma HasSuffix_nonempty (s suffix : string) :
  GoStrings.HasSuffix s suffix = true -> suffix <> "" -> s <> "".
Proof.
  intros H NE ->. destruct suffix; [congruence|discriminate].
Qed.

(** A text that ends with [suffix] loses nothing to [TrimRight] when
    [suffix] itself loses nothing. *)
Lemma TrimRight_keeps (cutset suffix : string) :
  suffix <> "" ->
  GoStrings.TrimRight suffix cutset = suffix ->
  forall s, GoStrings.HasSuffix s suffix = true -> GoStrings.TrimRight s cutset = s.
Proof.
  intros NE K. induction s as [|c t IH]; intros H.
  - exfalso. now apply (HasSuffix_nonempty "" suffix H NE).
  - rewrite HasSuffix_unfold in H. apply orb_true_iff in H as [H|H].
    + apply String.eqb_eq in H. now rewrite H.
    + simpl. rewrite (IH H).
      pose proof (HasSuffix_nonempty t suffix H NE) as T.
      apply eqb_empty_false in T. now rewrite T.
Qed.

End StringFacts.

Section Constructors.

Context {X : Externals} {E2 : ExecutorV2} {N : NetHTTP} {Co : Collaborators}.

(** X16.  Whatever base URL it is given, [createAuthenticatedEventHandler]
    makes a handler whose base URL ends with "mongodb-datastore"; the
    token, the header name, the client and the scheme are stored as they
    were given. *)
Theorem event_handler_addresses_the_datastore (baseURL authToken authHeader scheme : string)
        (httpClient : Client) :
  let h := EventUtils.createAuthenticatedEventHandler baseURL authToken authHeader
             httpClient scheme in
  GoStrings.HasSuffix (V2.BaseURL h) "mongodb-datastore" = true
  /\ V2.AuthToken h = authToken /\ V2.AuthHeader h = authHeader
  /\ V2.HTTPClient h = httpClient /\ V2.Scheme h = scheme.
Proof.
  intros h. subst h. unfold EventUtils.createAuthenticatedEventHandler. simpl.
  split; [|repeat split; reflexivity].
  destruct (GoStrings.HasSuffix _ EventUtils.mongodbDatastoreServiceBaseUrl) eqn:S;
    simpl; [exact S|].
  rewrite <- string_app_assoc. apply HasSuffix_app.
Qed.

(** X17.  The base URL that [createAuthenticatedEventHandler] stores is
    stable: when it does not begin with a scheme, making a handler from it
    again, with the same credentials, gives the same handler; the suffix is
    not added a second time. *)
Theorem event_handler_base_url_is_stable (baseURL authToken authHeader scheme : string)
        (httpClient : Client) :
  let h := EventUtils.createAuthenticatedEventHandler baseURL authToken authHeader
             httpClient scheme in
  GoStrings.HasPrefix (V2.BaseURL h) "http://" = false ->
  GoStrings.HasPrefix (V2.BaseURL h) "https://" = false ->
  EventUtils.createAuthenticatedEventHandler (V2.BaseURL h) authToken authHeader
    httpClient scheme = h.
Proof.
  intros h P1 P2.
  assert (Sx : GoStrings.HasSuffix (V2.BaseURL h) "mongodb-datastore" = true).
  { subst h. unfold EventUtils.createAuthenticatedEventHandler. simpl.
    destruct (GoStrings.HasSuffix _ EventUtils.mongodbDatastoreServiceBaseUrl) eqn:S;
      simpl; [exact S|].
    rewrite <- string_app_assoc. apply HasSuffix_app. }
  unfold EventUtils.createAuthenticatedEventHandler at 1.
  rewrite (TrimPrefix_without _ _ P1), (TrimPrefix_without _ _ P2).
  rewrite (TrimRight_keeps "/" "mongodb-datastore" ltac:(discriminate) eq_refl _ Sx).
  unfold EventUtils.mongodbDatastoreServiceBaseUrl. rewrite Sx. simpl.
  subst h. reflexivity.
Qed.

(** X18.  In both packages, [createAuthProjectHandler] makes a handler
    whose base URL ends with [shipyardControllerBaseURL], and stores the
    token, the header name, the client and the scheme as given. *)
Theorem project_handler_addresses_the_controller
        (baseURL authToken authHeader scheme : string) (httpClient : Client) :
  let h1 := ProjectUtils.createAuthProjectHandler baseURL authToken authHeader
              httpClient scheme in
  let h2 := ProjectUtilsV2.createAuthProjectHandler baseURL authToken authHeader
              httpClient scheme in
  GoStrings.HasSuffix (Api.BaseURL h1) shipyardControllerBaseURL = true
  /\ GoStrings.HasSuffix (ProjectUtilsV2.BaseURL h2) shipyardControllerBaseURL = true
  /\ Api.BaseURL h1 = ProjectUtilsV2.BaseURL h2
  /\ (Api.AuthToken h1, Api.AuthHeader h1, Api.HTTPClient h1, Api.Scheme h1)
     = (authToken, authHeader, httpClient, scheme)
  /\ (ProjectUtilsV2.AuthToken h2, ProjectUtilsV2.AuthHeader h2,
      ProjectUtilsV2.HTTPClient h2, ProjectUtilsV2.Scheme h2)
     = (authToken, authHeader, httpClient, scheme).
Proof.
  intros h1 h2. subst h1 h2.
  unfold ProjectUtils.createAuthProjectHandler, ProjectUtilsV2.createAuthProjectHandler.
  simpl.
  assert (G : forall t,
             GoStrings.HasSuffix
               (if negb (GoStrings.HasSuffix t shipyardControllerBaseURL)
                then t +:+ "/" +:+ shipyardControllerBaseURL else t)
               shipyardControllerBaseURL = true).
  { intros t. destruct (GoStrings.HasSuffix t shipyardControllerBaseURL) eqn:S;
      simpl; [exact S|].
    rewrite <- string_app_assoc. apply HasSuffix_app. }
  repeat split; apply G.
Qed.

Lemma Contains_at_start (prefix s : string) :
  GoStrings.Contains (prefix +:+ s) prefix = true.
Proof.
  assert (H : GoStrings.HasPrefix (prefix +:+ s) prefix = true).
  { unfold GoStrings.HasPrefix. now rewrite stripPrefix_app. }
  destruct (prefix +:+ s); simpl; now rewrite H.
Qed.

Lemma Contains_https_behind_http (host : string) :
  GoStrings.Contains ("http://" +:+ host) "https://" = GoStrings.Contains host "https://".
Proof. reflexivity. Qed.

(** X19.  [NewEventHandler] strips a scheme only from the front of the base
    URL, and looks for "https://" anywhere in it first: a URL that begins
    with "https://" loses it; a URL that begins with "http://" loses it
    exactly when "https://" does not occur later in the URL, and is kept
    whole otherwise.  The handler has no credentials, and its scheme is
    "http" whatever the scheme of the URL was. *)
Theorem NewEventHandler_strips_the_scheme (host : string) :
  V2.BaseURL (EventUtils.NewEventHandler ("https://" +:+ host)) = host
  /\ V2.BaseURL (EventUtils.NewEventHandler ("http://" +:+ host))
     = (if GoStrings.Contains host "https://" then "http://" +:+ host else host)
  /\ V2.Scheme (EventUtils.NewEventHandler ("https://" +:+ host)) = "http"
  /\ V2.AuthToken (EventUtils.NewEventHandler ("https://" +:+ host)) = ""
  /\ V2.AuthHeader (EventUtils.NewEventHandler ("https://" +:+ host)) = "".
Proof.
  assert (B : forall baseURL,
             V2.BaseURL (EventUtils.NewEventHandler baseURL)
             = if GoStrings.Contains baseURL "https://"
               then GoStrings.TrimPrefix baseURL "https://"
               else if GoStrings.Contains baseURL "http://"
                    then GoStrings.TrimPrefix baseURL "http://"
                    else baseURL) by reflexivity.
  rewrite !B.
  rewrite (Contains_at_start "https://" host), (TrimPrefix_app "https://" host).
  rewrite Contains_https_behind_http.
  split; [reflexivity|]. split; [|repeat split; reflexivity].
  destruct (GoStrings.Contains host "https://") eqn:C.
  - apply TrimPrefix_without. reflexivity.
  - rewrite (Contains_at_start "http://" host). apply (TrimPrefix_app "http://" host).
Qed.

End Constructors.

(** ** The transport builder *)

Section TransportFacts.

Context {N : NetHTTP}.

Import Transport.

Lemma getClientTransport_depth (rt : RoundTripper) :
  otelDepth (getClientTransport rt) = otelDepth rt.
Proof. destruct rt; reflexivity. Qed.

(** X20.  [getClientTransport] never returns nil and is idempotent.  From
    nil or a standard transport it gives a standard transport that skips
    certificate verification and takes its proxy from the environment; the
    TLS configuration a standard transport had before is replaced, its
    other fields are kept.  A round tripper of any other type, the
    instrumentation wrapper included, is returned untouched. *)
Theorem getClientTransport_spec (rt : RoundTripper) :
  getClientTransport (getClientTransport rt) = getClientTransport rt
  /\ getClientTransport rt <> NilRoundTripper
  /\ (forall tr, getClientTransport rt = Standard tr ->
        TLSClientConfig tr = Some insecure /\ Proxy tr = Some ProxyFromEnvironment)
  /\ (forall tr, rt = Standard tr ->
        exists tr', getClientTransport rt = Standard tr'
                    /\ transportFields tr' = transportFields tr)
  /\ (forall base, rt = Otel base -> getClientTransport rt = rt)
  /\ (forall c, rt = Custom c -> getClientTransport rt = rt).
Proof.
  split; [now destruct rt|]. split; [now destruct rt|]. split; [|split; [|split]].
  - intros tr H. destruct rt; simpl in H; try discriminate;
      inversion H; subst; now split.
  - intros tr ->. simpl. eexists. split; reflexivity.
  - now intros base ->.
  - now intros c ->.
Qed.

(** X21.  Every call of [createInstrumentedClientTransport] adds one
    instrumentation layer and removes none: a client that went through it
    [n] times has [n] layers more than before, and its other fields are
    unchanged.  A nil client gives a client with one layer. *)
Theorem instrumentation_layers_accumulate (c : HTTPClient) (n : nat) :
  let again := fun c => createInstrumentedClientTransport (Some c) in
  otelDepth (ClientTransport (Nat.iter n again c)) = (n + otelDepth (ClientTransport c))%nat
  /\ clientFields (Nat.iter n again c) = clientFields c
  /\ otelDepth (ClientTransport (createInstrumentedClientTransport None)) = 1%nat.
Proof.
  intros again. split; [|split; [|reflexivity]].
  - induction n as [|n IH]; [reflexivity|].
    simpl. rewrite getClientTransport_depth. now rewrite IH.
  - induction n as [|n IH]; [reflexivity|]. simpl. exact IH.
Qed.

End TransportFacts.

(** ** The legacy package *)

Section LegacyMore.

Context {X : Externals} {LC : LegacyCodec}.

Variables (c : APIService) (uri : string) (w : World).


Variables (resp : Response) (n' : Net).
Hypothesis request_ok : forall method url, NewRequest_error method url = None.
Hypothesis answered : forall req, getHTTPClient c req (net w) = (inr resp, n').

Lemma legacy_band_cases :
  (200 <= StatusCode resp < 300
   /\ (200 <=? StatusCode resp) && (StatusCode resp <? 300) = true)
  \/ (~ 200 <= StatusCode resp < 300
      /\ (200 <=? StatusCode resp) && (StatusCode resp <? 300) = false).
Proof.
  destruct (Z.leb_spec 200 (StatusCode resp)); destruct (Z.ltb_spec (StatusCode resp) 300);
    simpl; (left; split; [lia|reflexivity]) || (right; split; [lia|reflexivity]).
Qed.



End LegacyMore.

(** ** The methods of the project handler *)

Section ProjectMethods.

Context {X : Externals} {N : NetHTTP} {Co : Collaborators}.

Variables (p : Api.ProjectHandler) (project : Project) (w : World).

(** X25.  A project that does not marshal never reaches the network:
    [CreateProject] and [UpdateConfigurationServiceProject] return the error
    of [ToJSON] and leave the world as it was. *)
Theorem unmarshallable_project_makes_no_request (err : string) :
  Project_ToJSON project = inl err ->
  ProjectUtils.CreateProject p project w
  = (Ret (None, Some (Api.buildErrorResponse err)), w)
  /\ ProjectUtils.UpdateConfigurationServiceProject p project w
     = (Ret (None, Some (Api.buildErrorResponse err)), w).
Proof.
  intros H. unfold ProjectUtils.CreateProject, ProjectUtils.UpdateConfigurationServiceProject.
  rewrite H. now split.
Qed.


End ProjectMethods.

(** ** The listings of projects *)

Section ProjectListings.

Context {X : Externals} {E2 : ExecutorV2} {N : NetHTTP} {Co : Collaborators}.

Lemma projectRequests_count (u : URL) (key : string) (pages : list (Projects Project)) :
  requestCount (projectRequests u key pages) = length pages.
Proof.
  revert key. unfold requestCount.
  induction pages as [|page rest IH]; intros key; simpl;
    [reflexivity | now rewrite IH].
Qed.


Variables (ctx : Context) (p : ProjectUtilsV2.ProjectHandler) (u : URL).
Hypothesis url_ok :
  url_Parse (ProjectUtilsV2.Scheme p +:+ "://" +:+ ProjectUtilsV2.BaseURL p
               +:+ Api.v1ProjectPath) = inr u.

Lemma projectsV2_turn (fuel : nat) (acc : list Project) (key : string) (w : World)
      (body : bytes) (n1 : Net) (page : Projects Project) :
  getAndExpectOK ctx (Api.pageURL u key) (ProjectUtilsV2.ProjectHandler_api p) (net w)
  = ((body, None), n1) ->
  Projects_FromJSON body = inr page ->
  ProjectUtilsV2.GetAllProjectsWithContext_loop (S fuel) ctx p acc key w
  = let w' := {| net := n1; trace := trace w ++ [EvRequest "GET" (Api.pageURL u key)] |} in
    if String.eqb (Projects_NextPageKey page) "" || String.eqb (Projects_NextPageKey page) "0"
    then Some ((acc ++ Projects_Projects page, None), w')
    else ProjectUtilsV2.GetAllProjectsWithContext_loop fuel ctx p
           (acc ++ Projects_Projects page) (Projects_NextPageKey page) w'.
Proof using url_ok.
  intros G D. simpl. rewrite url_ok. unfold ProjectUtilsV2.callExecutor.
  rewrite G, D. reflexivity.
Qed.

Lemma projectsV2_run (init : list (Projects Project)) (final : Projects Project) :
  forall (key : string) (w : World) (n2 : Net) (acc : list Project) (fuel : nat),
    servedProjectsV2 ctx p u key (net w) (init ++ [final]) n2 ->
    Forall (fun q => ~ sentinel (Projects_NextPageKey q)) init ->
    sentinel (Projects_NextPageKey final) ->
    (length init < fuel)%nat ->
    ProjectUtilsV2.GetAllProjectsWithContext_loop fuel ctx p acc key w
    = Some ((acc ++ allProjects (init ++ [final]), None),
            {| net := n2; trace := trace w ++ projectRequests u key (init ++ [final]) |}).
Proof using url_ok.
  induction init as [|page rest IH]; intros key w n2 acc fuel Sv F L Fu.
  - destruct fuel as [|fuel]; [simpl in Fu; lia|].
    inversion Sv as [|? ? body n1 ? ? ? G D S']; subst.
    inversion S'; subst.
    rewrite (projectsV2_turn fuel acc key w body n2 final G D). simpl.
    apply sentinel_eqb in L. rewrite L.
    unfold allProjects. simpl. now rewrite app_nil_r.
  - destruct fuel as [|fuel]; [simpl in Fu; lia|].
    simpl in Sv. inversion Sv as [|? ? body n1 ? ? ? G D S']; subst.
    inversion F as [|? ? Fp Fr]; subst.
    rewrite (projectsV2_turn fuel acc key w body n1 page G D). simpl.
    assert (NL : String.eqb (Projects_NextPageKey page) ""
                 || String.eqb (Projects_NextPageKey page) "0" = false).
    { apply not_true_iff_false. intros T. now apply sentinel_eqb in T. }
    rewrite NL.
    rewrite (IH (Projects_NextPageKey page)
               {| net := n1; trace := trace w ++ [EvRequest "GET" (Api.pageURL u key)] |}
               n2 (acc ++ Projects_Projects page) fuel S' Fr L); [|simpl in Fu; lia].
    unfold allProjects. simpl. rewrite <- !app_assoc. reflexivity.
Qed.

(** X28.  [GetAllProjectsWithContext] of the v2 package lists in the same
    way through the executor [getAndExpectOK]: the projects of all N pages
    in arrival order, a nil error, exactly N requests, and no page limit. *)
Theorem GetAllProjectsWithContext_lists_every_page
        (init : list (Projects Project)) (final : Projects Project)
        (w : World) (n2 : Net) (fuel : nat) :
  servedProjectsV2 ctx p u "" (net w) (init ++ [final]) n2 ->
  Forall (fun q => ~ sentinel (Projects_NextPageKey q)) init ->
  sentinel (Projects_NextPageKey final) ->
  (length (init ++ [final]) <= fuel)%nat ->
  ProjectUtilsV2.GetAllProjectsWithContext fuel ctx p w
  = Some ((allProjects (init ++ [final]), None),
          {| net := n2; trace := trace w ++ projectRequests u "" (init ++ [final]) |})
  /\ requestCount (projectRequests u "" (init ++ [final])) = length (init ++ [final]).
Proof using url_ok.
  intros Sv NS LS Fu. split.
  - unfold ProjectUtilsV2.GetAllProjectsWithContext.
    rewrite (projectsV2_run init final "" w n2 [] fuel Sv NS LS); [reflexivity|].
    rewrite length_app in Fu. simpl in Fu. lia.
  - apply projectRequests_count.
Qed.

End ProjectListings.

(** * The further properties on concrete backends *)

Section ConcreteMore.

Import Sample SampleMore.

Abbreviation someHandler := (eventHandler "x-token" "secret").








Lemma pagination_failure_discards_pages_witness :
  @V2.getEventsWithContext env (executor failsSecond) 10 false someHandler eventsURI 0 world0
  = Some (([], Some {| Message := Some "backend unavailable" |}),
          world 2 [EvRequest "GET" "http://api.example/events";
                   EvRequest "GET" "http://api.example/events?nextPageKey=1"]).
Proof.
  apply (@pagination_failure_discards_pages env (executor failsSecond) false someHandler
           eventsURI eventsURL eq_refl 0 [page1] world0 1%nat 2%nat []
           {| Message := Some "backend unavailable" |} 10%nat).
  - eapply (@served_cons env); [reflexivity | reflexivity |]. apply (@served_nil env).
  - constructor; [reflexivity|constructor].
  - left. eexists. split; reflexivity.
  - simpl. lia.
Defined.

Lemma endless_cursors_never_return_witness :
  @V2.getEventsWithContext env (executor endless) 1000 false someHandler eventsURI 0 world0
  = None.
Proof.
  apply (@endless_cursors_never_return env (executor endless) false someHandler
           eventsURI eventsURL eq_refl 0).
  intros key n. exists (b "<events 1>"), (S n), page1. repeat split; reflexivity.
Defined.

Lemma retry_without_attempts_witness :
  @V2.GetEventsWithRetryWithContext env (executor threePages) 10 false someHandler
    (noFilter 0) (-1) 5 world0
  = Some (Ret ([], Some "could not find matching event after -1 x 5ns"), world0).
Proof.
  apply (@retry_without_attempts env (executor threePages) false someHandler 10%nat
           (noFilter 0) (-1) 5 world0).
  lia.
Defined.

Lemma retry_result_shape_witness :
  exists w',
    @V2.GetEventsWithRetryWithContext env (executor (eventuallyThere 1)) 10 false
      someHandler (noFilter 0) 3 5 world0 = Some (Ret (["e4"], None), w')
    /\ ((@None string = None /\ ["e4"] <> [])
        \/ (None = Some (@V2.notFound env 3 5) /\ ["e4"] = [])).
Proof.
  eexists. split; [reflexivity|].
  eapply (@retry_result_shape env (executor (eventuallyThere 1)) false someHandler 10%nat
            (noFilter 0) 3 5 world0).
  reflexivity.
Defined.

Lemma exhaustion_pauses_after_the_last_attempt_witness :
  exists w1,
    @V2.GetEventsWithRetryWithContext env (executor (eventuallyThere 5)) 10 false
      someHandler (noFilter 0) 2 5 world0
    = Some (Ret ([], Some "could not find matching event after 2 x 5ns"), w1)
    /\ (exists t, trace w1 = trace world0 ++ t /\ @sleepsOf env t = [5; 5])
    /\ exists t, trace w1 = t ++ [@EvSleep env 5].
Proof.
  assert (F : exists w1,
             @failing env (executor (eventuallyThere 5)) 10 false someHandler (noFilter 0)
               5 (Z.to_nat 2) world0 w1).
  { eexists.
    repeat (eapply (@failing_S env); [reflexivity | reflexivity |]).
    apply (@failing_O env). }
  destruct F as (w1 & F).
  exists w1.
  destruct (@exhaustion_pauses_after_the_last_attempt env (executor (eventuallyThere 5))
              false someHandler 10%nat (noFilter 0) 2 5 world0 w1 F) as (R & T & L).
  split; [exact R|]. split; [exact T|]. apply L. lia.
Defined.

Lemma unparsable_event_url_is_fatal_witness :
  @V2.GetEventsWithRetryWithContext strictEnv strictExecutor 10 false strictHandler
    (noFilter 0) 3 5 strictWorld0
  = Some (Fatal "error parsing url", @emit strictEnv (@EvFetch strictEnv) strictWorld0).
Proof.
  destruct (@unparsable_event_url_is_fatal strictEnv strictExecutor false strictHandler
              10%nat (noFilter 0) 3 5 strictWorld0 "invalid character in URL" eq_refl)
    as (_ & R).
  apply R. lia.
Defined.

Lemma event_handler_base_url_is_stable_witness :
  V2.BaseURL (@EventUtils.createAuthenticatedEventHandler env "https://api.example/"
                "secret" "x-token" brokenClient "https")
  = "api.example/mongodb-datastore"
  /\ @EventUtils.createAuthenticatedEventHandler env "api.example/mongodb-datastore"
       "secret" "x-token" brokenClient "https"
     = @EventUtils.createAuthenticatedEventHandler env "https://api.example/"
         "secret" "x-token" brokenClient "https".
Proof.
  split; [reflexivity|].
  apply (@event_handler_base_url_is_stable env "https://api.example/" "secret" "x-token"
           "https" brokenClient eq_refl eq_refl).
Defined.




Lemma unmarshallable_project_makes_no_request_witness :
  @ProjectUtils.CreateProject env netHTTP collaborators (projectHandler brokenClient) ""
    world0
  = (Ret (None, Some {| Message := Some "json: unsupported value" |}), world0).
Proof.
  apply (@unmarshallable_project_makes_no_request env netHTTP collaborators
           (projectHandler brokenClient) "" world0 "json: unsupported value" eq_refl).
Defined.



Lemma GetAllProjectsWithContext_lists_every_page_witness :
  @ProjectUtilsV2.GetAllProjectsWithContext env (executor projectsBackend) 5 false
    projectHandlerV2 world0
  = Some ((["p1"; "p2"; "p3"], None),
          world 2 [EvRequest "GET" "http://api.example/controlPlane/v1/project";
                   EvRequest "GET"
                     "http://api.example/controlPlane/v1/project?nextPageKey=1"]).
Proof.
  apply (@GetAllProjectsWithContext_lists_every_page env (executor projectsBackend) false
           projectHandlerV2 projectsURL eq_refl [projectPage1] projectPage2 world0 2%nat
           5%nat).
  - repeat (eapply (@servedProjectsV2_cons env); [reflexivity | reflexivity |]).
    apply (@servedProjectsV2_nil env).
  - constructor; [intros [H|H]; discriminate|constructor].
  - now left.
  - simpl. lia.
Defined.

End ConcreteMore.
